(** * ConsoleHost_history extraction: a model of [mcp_server.py]

    The development follows [extract_from_image] and its local helpers
    ([find_consolehost_files], [extract_file_content],
    [get_username_from_path]).  Python [str] values are sequences of code
    points, [bytes] values are sequences of octets.  The forensic library
    (pytsk3) is seen through what the program observes of it: directory
    listings, entry metadata, reads that return or raise. *)

From Stdlib Require Import List NArith ZArith Arith Bool Lia Sorted.
From Stdlib Require Import Strings.String Strings.Byte Numbers.DecimalString.
From Stdlib Require Import Numbers.DecimalNat.
Import ListNotations.

Set Implicit Arguments.

(** ** Text and bytes *)

Definition text := list N.
Definition bytes := list byte.

(** A literal of the source, as code points. *)
Definition txt (s : string) : text := map Byte.to_N (list_byte_of_string s).

(** A call into the libraries either returns or raises; [msg] is [str(e)]. *)
Inductive outcome (A : Type) : Type :=
| Returns (a : A)
| Raises (msg : text).

Arguments Raises {A} msg.

Fixpoint text_eqb (a b : text) : bool :=
  match a, b with
  | [], [] => true
  | x :: a', y :: b' => (x =? y)%N && text_eqb a' b'
  | _, _ => false
  end.

(** [x in [..]] on a list of strings. *)
Definition mem (x : text) (l : list text) : bool := existsb (text_eqb x) l.

Fixpoint starts_with (p s : text) : bool :=
  match p, s with
  | [], _ => true
  | x :: p', y :: s' => (x =? y)%N && starts_with p' s'
  | _ :: _, [] => false
  end.

(** [p in s] on strings: [p] occurs as a substring of [s]. *)
Fixpoint contains (p s : text) : bool :=
  starts_with p s ||
  match s with
  | [] => false
  | _ :: s' => contains p s'
  end.

(** [s.split(sep)] for a one-character separator. *)
Fixpoint split (sep : N) (s : text) : list text :=
  match s with
  | [] => [[]]
  | c :: r =>
      if (c =? sep)%N then [] :: split sep r
      else match split sep r with
           | l :: ls => (c :: l) :: ls
           | [] => [[c]]
           end
  end.

(** [str.isspace] of one code point (the interpreter's white-space table). *)
Definition is_space (c : N) : bool :=
  ((9 <=? c) && (c <=? 13) || (28 <=? c) && (c <=? 32) ||
   (c =? 133) || (c =? 160) || (c =? 5760) ||
   (8192 <=? c) && (c <=? 8202) || (c =? 8232) || (c =? 8233) ||
   (c =? 8239) || (c =? 8287) || (c =? 12288))%N.

(** The line boundaries of [str.splitlines]. *)
Definition is_linebreak (c : N) : bool :=
  ((10 <=? c) && (c <=? 13) || (28 <=? c) && (c <=? 30) ||
   (c =? 133) || (c =? 8232) || (c =? 8233))%N.

Fixpoint lstrip (s : text) : text :=
  match s with
  | c :: r => if is_space c then lstrip r else s
  | [] => []
  end.

(** [s.strip()] *)
Definition strip (s : text) : text := rev (lstrip (rev (lstrip s))).

(** [s.splitlines()]: [cur] is the current line, reversed.  A carriage
    return followed by a line feed ends one line; a trailing fragment
    without terminator is a line only when it is not empty. *)
Fixpoint splitlines_from (cur : text) (s : text) : list text :=
  match s with
  | [] => match cur with [] => [] | _ :: _ => [rev cur] end
  | c :: r =>
      if is_linebreak c then
        rev cur ::
        match r with
        | d :: r' =>
            if (c =? 13)%N && (d =? 10)%N then splitlines_from [] r'
            else splitlines_from [] r
        | [] => splitlines_from [] r
        end
      else splitlines_from (c :: cur) r
  end.

Definition splitlines (s : text) : list text := splitlines_from [] s.

(** [str(n)] for a natural number. *)
Definition decimal (n : nat) : text := txt (NilZero.string_of_uint (Nat.to_uint n)).

(** ** Codecs *)

Inductive encoding := utf_8 | utf_8_sig | cp949 | euc_kr | latin_1.

Definition encoding_name (e : encoding) : string :=
  match e with
  | utf_8 => "utf-8"
  | utf_8_sig => "utf-8-sig"
  | cp949 => "cp949"
  | euc_kr => "euc-kr"
  | latin_1 => "latin-1"
  end.

Definition is_cont (x : N) : bool := ((128 <=? x) && (x <=? 191))%N.

(** Admissible second octet after the lead octet [x0] of a three or four
    octet sequence: no overlong form, no surrogate, nothing above U+10FFFF. *)
Definition second_ok (x0 x1 : N) : bool :=
  (if x0 =? 224 then (160 <=? x1) && (x1 <=? 191)
   else if x0 =? 237 then (128 <=? x1) && (x1 <=? 159)
   else if x0 =? 240 then (144 <=? x1) && (x1 <=? 191)
   else if x0 =? 244 then (128 <=? x1) && (x1 <=? 143)
   else is_cont x1)%N.

(** Strict UTF-8 decoding; [None] stands for [UnicodeDecodeError]. *)
Fixpoint utf8_decode (bs : bytes) : option text :=
  match bs with
  | [] => Some []
  | b0 :: r0 =>
      let x0 := Byte.to_N b0 in
      if (x0 <? 128)%N then option_map (cons x0) (utf8_decode r0)
      else if ((194 <=? x0) && (x0 <=? 223))%N then
        match r0 with
        | b1 :: r1 =>
            let x1 := Byte.to_N b1 in
            if is_cont x1
            then option_map (cons ((x0 - 192) * 64 + (x1 - 128))%N) (utf8_decode r1)
            else None
        | _ => None
        end
      else if ((224 <=? x0) && (x0 <=? 239))%N then
        match r0 with
        | b1 :: b2 :: r2 =>
            let x1 := Byte.to_N b1 in
            let x2 := Byte.to_N b2 in
            if second_ok x0 x1 && is_cont x2
            then option_map
                   (cons ((x0 - 224) * 4096 + (x1 - 128) * 64 + (x2 - 128))%N)
                   (utf8_decode r2)
            else None
        | _ => None
        end
      else if ((240 <=? x0) && (x0 <=? 244))%N then
        match r0 with
        | b1 :: b2 :: b3 :: r3 =>
            let x1 := Byte.to_N b1 in
            let x2 := Byte.to_N b2 in
            let x3 := Byte.to_N b3 in
            if second_ok x0 x1 && is_cont x2 && is_cont x3
            then option_map
                   (cons ((x0 - 240) * 262144 + (x1 - 128) * 4096
                          + (x2 - 128) * 64 + (x3 - 128))%N)
                   (utf8_decode r3)
            else None
        | _ => None
        end
      else None
  end.

(** [utf-8-sig]: a leading byte-order mark EF BB BF is dropped, the rest is
    UTF-8. *)
Definition utf8_sig_decode (bs : bytes) : option text :=
  match bs with
  | b0 :: b1 :: b2 :: r =>
      if ((Byte.to_N b0 =? 239) && (Byte.to_N b1 =? 187) && (Byte.to_N b2 =? 191))%N
      then utf8_decode r
      else utf8_decode bs
  | _ => utf8_decode bs
  end.

(** [latin-1]: every octet is its own code point; never raises. *)
Definition latin1_decode (bs : bytes) : text := map Byte.to_N bs.

(** ** What the program sees of a filesystem *)

(** [entry.info.name.name] and [part.desc] come as [bytes] or as [str]. *)
Inductive raw_text :=
| AsBytes (b : bytes)
| AsStr (s : text).

Inductive TSK_FS_META_TYPE :=
| TSK_FS_META_TYPE_REG
| TSK_FS_META_TYPE_DIR
| TSK_FS_META_TYPE_OTHER.

Record tsk_meta := { meta_type : TSK_FS_META_TYPE; meta_size : N }.

(** What [fs.open_dir] and the iteration over its result do for one
    directory: the listing is delivered in full, or [open_dir] raises, or
    the iterator raises once the listed entries have been delivered. *)
Inductive dir_status :=
| Opens
| OpenRaises
| IterRaises (msg : text).

(** A directory entry.  [Damaged] is an entry whose name cannot be read
    (the attribute access raises).  Otherwise the entry has a name, maybe
    metadata, the outcome of [entry.read_random(0, size)], and what
    [fs.open_dir] gives for the entry's full path.  The filesystem is a
    tree: the path of an entry resolves to that entry's own listing. *)
#[warnings="-register-all"]
Inductive entry : Type :=
| Damaged
| Entry (name : raw_text) (meta : option tsk_meta)
        (read_random : outcome bytes)
        (status : dir_status) (listing : list entry).

Definition directory : Type := (dir_status * list entry)%type.

(** One element of [results] / [all_results]. *)
Record found := {
  r_path : text;
  r_size : N;
  r_entry : entry;
  r_partition : option text;
  r_partition_num : option nat
}.

(** The walk's state: the shared [results] list, and the paths handed to
    [fs.open_dir] so far. *)
Record walk := { results : list found; opened : list text }.

Definition start_walk : walk := {| results := []; opened := [] |}.

Record partition_info := { flags : N; desc : raw_text; start : N }.

Definition TSK_VS_PART_FLAG_ALLOC : N := 1.

(** An opened image: what [pytsk3.Volume_Info(img)] followed by [list(..)]
    gives, and what [pytsk3.FS_Info(img, offset)] gives at a byte offset. *)
Record image := {
  Volume_Info : outcome (list partition_info);
  FS_Info : N -> outcome directory
}.

(** The host: whether the two imports succeed, [Path(p).exists()], and
    [open_image] (which picks the container reader by file extension). *)
Record host := {
  pytsk3_installed : bool;
  pyewf_installed : bool;
  path_exists : text -> bool;
  open_image : text -> outcome image
}.

(** ** Results *)

Record command := { line_number : nat; command_text : text }.

(** [Path(output_dir) / output_filename], kept as its two parts. *)
Record out_path := { op_dir : text; op_name : text }.

Record artifact := {
  username : text;
  source_path : text;
  output_path : out_path;
  file_size : N;
  partition : text;
  encoding_used : option encoding;
  command_count : nat;
  commands : list command
}.

Record summary := {
  image_path : text;
  output_dir : text;
  files_found : nat;
  files_extracted : nat;
  extracted_files : list artifact
}.

(** What a call of [extract_from_image] does: it returns a failure
    dictionary, a success dictionary, or an exception leaves it. *)
Inductive result :=
| Failure (error : text)
| Success (s : summary)
| Escapes (exception : text).

(** Effects on the disk, in order.  The model follows the runs in which
    [Path(image_path).exists()], the creation of the directory and the
    writes of the files do not raise. *)
Inductive event :=
| Mkdir (dir : text)
| WriteFile (dir name : text) (data : bytes).

(** State of the extraction loop: effects so far, [extracted_files], and
    the local variable [content] (unbound until a first decode). *)
Record loop_state := {
  events : list event;
  extracted : list artifact;
  content_var : option text
}.

(** ** The program *)

Section Extraction.

(** Tables of the interpreter that the repository does not contain:
    [str.lower] outside ASCII, [bytes.decode('utf-8', errors='replace')]
    (total), and the two Korean codecs ([None] for [UnicodeDecodeError]). *)
Variable unicode_lower : text -> text.
Variable utf8_replace : bytes -> text.
Variable cp949_decode : bytes -> option text.
Variable euc_kr_decode : bytes -> option text.

Definition ascii_lower (c : N) : N :=
  if ((65 <=? c) && (c <=? 90))%N then (c + 32)%N else c.

(** [s.lower()] *)
Definition lower (s : text) : text :=
  if forallb (fun c => (c <? 128)%N) s then map ascii_lower s
  else unicode_lower s.

(** [if isinstance(x, bytes): x = x.decode('utf-8', errors='replace')] *)
Definition to_text (r : raw_text) : text :=
  match r with
  | AsBytes b => utf8_replace b
  | AsStr s => s
  end.

(** *** [find_consolehost_files] *)

Definition target_filename : text := txt "consolehost_history.txt".

Definition target_path_parts : list text :=
  [txt "appdata"; txt "roaming"; txt "microsoft"; txt "windows";
   txt "powershell"; txt "psreadline"].

(** [f"{path}/{name}" if path != "/" else f"/{name}"] *)
Definition full_path_of (path name : text) : text :=
  if negb (text_eqb path (txt "/")) then path ++ txt "/" ++ name
  else txt "/" ++ name.

(** [all(part in path_lower for part in target_path_parts)] *)
Definition all_parts_in (path_lower : text) : bool :=
  forallb (fun part => contains part path_lower) target_path_parts.

(** The condition of the [if] that guards the first recursive call. *)
Definition descend_if (name full_path : text) : bool :=
  mem (lower name) [txt "users"; txt "documents and settings"]
  || mem (lower name) target_path_parts
  || contains (txt "appdata") (lower full_path).

(** The condition of the [elif] that guards the second one. *)
Definition descend_elif (path : text) : bool :=
  mem (lower path) [txt "/users"; txt "/documents and settings"].

Definition log_open (path : text) (st : walk) : walk :=
  {| results := results st; opened := opened st ++ [path] |}.

Definition append_result (r : found) (st : walk) : walk :=
  {| results := results st ++ [r]; opened := opened st |}.

(** The body of [for entry in directory] for one entry in the directory
    [path], with its [try] / [except Exception: continue].  The recursive
    call logs [open_dir(full_path)]; when that raises nothing is added, and
    when the iteration of the subdirectory raises, what its earlier entries
    added to the shared list stays and the exception ends here. *)
Fixpoint visit (path : text) (e : entry) (st : walk) {struct e} : walk :=
  match e with
  | Damaged => st
  | Entry raw meta _ status listing =>
      let name := to_text raw in
      if mem name [txt "."; txt ".."] then st
      else
        let full_path := full_path_of path name in
        let recurse (_ : unit) : walk :=
          match status with
          | OpenRaises => log_open full_path st
          | Opens | IterRaises _ =>
              (fix each (es : list entry) (s : walk) {struct es} : walk :=
                 match es with
                 | [] => s
                 | c :: es' => each es' (visit full_path c s)
                 end) listing (log_open full_path st)
          end in
        match meta with
        | None => st
        | Some m =>
            match meta_type m with
            | TSK_FS_META_TYPE_REG =>
                if text_eqb (lower name) target_filename then
                  let path_lower := lower full_path in
                  if all_parts_in path_lower then
                    append_result
                      {| r_path := full_path; r_size := meta_size m;
                         r_entry := e; r_partition := None;
                         r_partition_num := None |} st
                  else st
                else st
            | TSK_FS_META_TYPE_DIR =>
                if descend_if name full_path then recurse tt
                else if descend_elif path then recurse tt
                else st
            | TSK_FS_META_TYPE_OTHER => st
            end
        end
  end.

(** The loop over the entries that the iterator delivers. *)
Definition scan (path : text) (es : list entry) (st : walk) : walk :=
  fold_left (fun s e => visit path e s) es st.

(** [find_consolehost_files(fs, path, results)] on the directory that
    [path] resolves to.  The second component is the exception that leaves
    the call, if any: only the iterator's own failure does. *)
Definition find_consolehost_files (d : directory) (path : text) (st : walk)
  : walk * option text :=
  match fst d with
  | OpenRaises => (log_open path st, None)
  | Opens => (scan path (snd d) (log_open path st), None)
  | IterRaises msg => (scan path (snd d) (log_open path st), Some msg)
  end.

(** *** [extract_file_content] *)

Definition extract_file_content (e : entry) : option bytes :=
  match e with
  | Entry _ (Some _) (Returns data) _ _ => Some data
  | _ => None
  end.

(** *** [get_username_from_path] *)

(** The loop [for i, part in enumerate(path_parts)], at index [i] with
    [rest] still to be seen. *)
Fixpoint username_loop (path_parts : list text) (i : nat) (rest : list text)
  : text :=
  match rest with
  | [] => txt "unknown"
  | part :: rest' =>
      if text_eqb (lower part) (txt "users") && (i + 1 <? List.length path_parts)
      then nth (i + 1) path_parts []
      else username_loop path_parts (S i) rest'
  end.

Definition get_username_from_path (file_path : text) : text :=
  let path_parts := split 47 file_path in
  username_loop path_parts 0 path_parts.

(** *** Decoding and line splitting *)

Definition encodings : list encoding :=
  [utf_8; utf_8_sig; cp949; euc_kr; latin_1].

(** [content_bytes.decode(encoding)]; [None] for [UnicodeDecodeError]. *)
Definition decode (enc : encoding) (content_bytes : bytes) : option text :=
  match enc with
  | utf_8 => utf8_decode content_bytes
  | utf_8_sig => utf8_sig_decode content_bytes
  | cp949 => cp949_decode content_bytes
  | euc_kr => euc_kr_decode content_bytes
  | latin_1 => Some (latin1_decode content_bytes)
  end.

(** [for encoding in encodings: try: ... break / except: continue] *)
Fixpoint try_encodings (encs : list encoding) (content_bytes : bytes)
  : option (text * encoding) :=
  match encs with
  | [] => None
  | enc :: rest =>
      match decode enc content_bytes with
      | Some content => Some (content, enc)
      | None => try_encodings rest content_bytes
      end
  end.

(** [for line_num, line in enumerate(lines, start=...)] *)
Fixpoint number_lines (line_num : nat) (lines : list text) : list command :=
  match lines with
  | [] => []
  | line :: rest =>
      let stripped := strip line in
      match stripped with
      | _ :: _ =>
          {| line_number := line_num; command_text := stripped |}
          :: number_lines (S line_num) rest
      | [] => number_lines (S line_num) rest
      end
  end.

(** [if content: lines = content.splitlines(); for ...] *)
Definition parse_commands (content : text) : list command :=
  match content with
  | _ :: _ => number_lines 1 (splitlines content)
  | [] => []
  end.

(** *** The extraction loop of [extract_from_image] *)

Definition output_filename (user : text) (i : nat) : text :=
  txt "ConsoleHost_history_" ++ user ++ txt "_" ++ decimal (i + 1) ++ txt ".txt".

(** One turn of [for i, result in enumerate(all_results)].  [inr] is the
    [UnboundLocalError] of reading [content] before any decode succeeded,
    with the effects up to that point. *)
Definition process_match (out_dir : text) (i : nat) (r : found)
  (st : loop_state) : loop_state + list event :=
  let user := get_username_from_path (r_path r) in
  let out_name := output_filename user i in
  match extract_file_content (r_entry r) with
  | Some ((_ :: _) as content_bytes) =>
      let written := events st ++ [WriteFile out_dir out_name content_bytes] in
      let decoded := try_encodings encodings content_bytes in
      let content := match decoded with
                     | Some (c, _) => Some c
                     | None => content_var st
                     end in
      let used_encoding := option_map snd decoded in
      match content with
      | None => inr written
      | Some c =>
          let cmds := parse_commands c in
          inl {| events := written;
                  extracted := extracted st ++
                    [{| username := user;
                        source_path := r_path r;
                        output_path := {| op_dir := out_dir; op_name := out_name |};
                        file_size := r_size r;
                        partition := match r_partition r with
                                     | Some d => d
                                     | None => txt "N/A"
                                     end;
                        encoding_used := used_encoding;
                        command_count := List.length cmds;
                        commands := cmds |}];
                  content_var := content |}
      end
  | _ => inl st
  end.

Fixpoint extract_all (out_dir : text) (i : nat) (all_results : list found)
  (st : loop_state) : loop_state + list event :=
  match all_results with
  | [] => inl st
  | r :: rest =>
      match process_match out_dir i r st with
      | inl st' => extract_all out_dir (S i) rest st'
      | inr evs => inr evs
      end
  end.

(** *** Collecting the matches *)

Definition tag (part_desc : text) (part_num : nat) (r : found) : found :=
  {| r_path := r_path r; r_size := r_size r; r_entry := r_entry r;
     r_partition := Some part_desc; r_partition_num := Some part_num |}.

(** What one partition adds to [all_results]: nothing when it is not
    allocated, when it is filtered out, when [FS_Info] raises or when an
    exception leaves the search; the tagged matches otherwise. *)
Definition partition_matches (img : image) (wanted : option Z)
  (part_num : nat) (part : partition_info) : list found :=
  if negb (flags part =? TSK_VS_PART_FLAG_ALLOC)%N then []
  else if match wanted with
          | Some p => negb (Z.of_nat part_num =? p)%Z
          | None => false
          end then []
  else
    let part_desc := to_text (desc part) in
    match FS_Info img (start part * 512)%N with
    | Raises _ => []
    | Returns fs =>
        match find_consolehost_files fs (txt "/") start_walk with
        | (w, None) => map (tag part_desc part_num) (results w)
        | (_, Some _) => []
        end
    end.

(** [for part in partitions], where [partitions.index(part)] is the
    position of [part] (the elements are distinct objects). *)
Fixpoint scan_partitions (img : image) (wanted : option Z) (part_num : nat)
  (parts : list partition_info) (all_results : list found) : list found :=
  match parts with
  | [] => all_results
  | part :: rest =>
      scan_partitions img wanted (S part_num) rest
        (all_results ++ partition_matches img wanted part_num part)
  end.

(** The [else] branch: one filesystem on the whole image. *)
Definition scan_whole_image (img : image) : outcome (list found) :=
  match FS_Info img 0 with
  | Raises e => Raises e
  | Returns fs =>
      match find_consolehost_files fs (txt "/") start_walk with
      | (w, None) => Returns (results w)
      | (_, Some e) => Raises e
      end
  end.

(** [partitions] after the probe: [None] when the probe raised. *)
Definition probe (img : image) : option (list partition_info) :=
  match Volume_Info img with
  | Returns ps => Some ps
  | Raises _ => None
  end.

(** [all_results] at the start of the extraction loop, or the exception
    caught in the [else] branch. *)
Definition gather (img : image) (wanted : option Z) : outcome (list found) :=
  match probe img with
  | Some ((_ :: _) as partitions) =>
      Returns (scan_partitions img wanted 0 partitions [])
  | _ => scan_whole_image img
  end.

(** *** [extract_from_image] *)

Definition extract_from_image (h : host) (img_path out_dir : text)
  (wanted : option Z) : result * list event :=
  if negb (pytsk3_installed h) then
    (Failure (txt "pytsk3 is not installed. Install it with: pip install pytsk3"), [])
  else if negb (pyewf_installed h) then
    (Failure (txt "pyewf is not installed. Install it with: pip install pyewf-python"), [])
  else if negb (path_exists h img_path) then
    (Failure (txt "Image file not found: " ++ img_path), [])
  else
    match open_image h img_path with
    | Raises e => (Failure (txt "Failed to open image: " ++ e), [])
    | Returns img =>
        match gather img wanted with
        | Raises e =>
            (Failure (txt "Could not process filesystem: " ++ e), [Mkdir out_dir])
        | Returns all_results =>
            match extract_all out_dir 0 all_results
                    {| events := [Mkdir out_dir]; extracted := [];
                       content_var := None |} with
            | inr evs => (Escapes (txt "UnboundLocalError"), evs)
            | inl st =>
                (Success {| image_path := img_path;
                            output_dir := out_dir;
                            files_found := List.length all_results;
                            files_extracted := List.length (extracted st);
                            extracted_files := extracted st |},
                 events st)
            end
        end
    end.

(** ** Reference descriptions used in the statements *)

(** [p] occurs in [s]. *)
Definition is_substring (p s : text) : Prop := exists a b, s = a ++ p ++ b.

(** What the entry [e] of the directory [path] adds to [results]. *)
Definition matches_of (path : text) (e : entry) : list found :=
  results (visit path e start_walk).

(** The effects and the records of the extraction loop, match by match. *)
Definition write_of (out_dir : text) (i : nat) (r : found) : list event :=
  match extract_file_content (r_entry r) with
  | Some ((_ :: _) as data) =>
      [WriteFile out_dir
         (output_filename (get_username_from_path (r_path r)) i) data]
  | _ => []
  end.

Definition artifact_of (out_dir : text) (i : nat) (r : found) : list artifact :=
  match extract_file_content (r_entry r) with
  | Some ((_ :: _) as data) =>
      match try_encodings encodings data with
      | Some (content, enc) =>
          let user := get_username_from_path (r_path r) in
          let cmds := parse_commands content in
          [{| username := user;
              source_path := r_path r;
              output_path := {| op_dir := out_dir;
                                op_name := output_filename user i |};
              file_size := r_size r;
              partition := match r_partition r with
                           | Some d => d
                           | None => txt "N/A"
                           end;
              encoding_used := Some enc;
              command_count := List.length cmds;
              commands := cmds |}]
      | None => []
      end
  | _ => []
  end.

Fixpoint writes_from (out_dir : text) (i : nat) (rs : list found) : list event :=
  match rs with
  | [] => []
  | r :: rest => write_of out_dir i r ++ writes_from out_dir (S i) rest
  end.

Fixpoint artifacts_from (out_dir : text) (i : nat) (rs : list found)
  : list artifact :=
  match rs with
  | [] => []
  | r :: rest => artifact_of out_dir i r ++ artifacts_from out_dir (S i) rest
  end.

(** The numbering of output files as the specification words it: the
    file of the [k]-th extracted artifact carries [k + 1]. *)
Definition numbered_among_extracted (arts : list artifact) : Prop :=
  forall k a, nth_error arts k = Some a ->
    op_name (output_path a) = output_filename (username a) k.

(** The filesystems whose search ran to its end, and the number of
    matches located in one of them. *)
Definition search_completes (fs : directory) : bool :=
  match fst fs with
  | IterRaises _ => false
  | _ => true
  end.

Definition selected (wanted : option Z) (part_num : nat) (part : partition_info)
  : bool :=
  (flags part =? TSK_VS_PART_FLAG_ALLOC)%N &&
  match wanted with
  | Some p => (Z.of_nat part_num =? p)%Z
  | None => true
  end.

Definition searched_at (img : image) (offset : N) : list directory :=
  match FS_Info img offset with
  | Returns fs => if search_completes fs then [fs] else []
  | Raises _ => []
  end.

Fixpoint searched_partitions (img : image) (wanted : option Z) (part_num : nat)
  (parts : list partition_info) : list directory :=
  match parts with
  | [] => []
  | part :: rest =>
      (if selected wanted part_num part
       then searched_at img (start part * 512)%N else [])
      ++ searched_partitions img wanted (S part_num) rest
  end.

Definition searched_filesystems (img : image) (wanted : option Z)
  : list directory :=
  match Volume_Info img with
  | Returns ((_ :: _) as parts) => searched_partitions img wanted 0 parts
  | _ => searched_at img 0
  end.

Definition located (fs : directory) : nat :=
  List.length (results (fst (find_consolehost_files fs (txt "/") start_walk))).

(** All the filesystems that were opened and searched, also those whose
    search an exception ended before its time. *)
Definition opened_at (img : image) (offset : N) : list directory :=
  match FS_Info img offset with
  | Returns fs => [fs]
  | Raises _ => []
  end.

Fixpoint opened_partitions (img : image) (wanted : option Z) (part_num : nat)
  (parts : list partition_info) : list directory :=
  match parts with
  | [] => []
  | part :: rest =>
      (if selected wanted part_num part
       then opened_at img (start part * 512)%N else [])
      ++ opened_partitions img wanted (S part_num) rest
  end.

Definition opened_filesystems (img : image) (wanted : option Z)
  : list directory :=
  match Volume_Info img with
  | Returns ((_ :: _) as parts) => opened_partitions img wanted 0 parts
  | _ => opened_at img 0
  end.

(** The four conditions under which the walk enters the directory [name]
    of the directory [path]. *)
Definition pruning_rule (path name : text) : Prop :=
  lower name = txt "users" \/ lower name = txt "documents and settings"
  \/ In (lower name)
        [txt "appdata"; txt "roaming"; txt "microsoft"; txt "windows";
         txt "powershell"; txt "psreadline"]
  \/ is_substring (txt "appdata") (lower (full_path_of path name))
  \/ lower path = txt "/users" \/ lower path = txt "/documents and settings".

(** Every required component occurs in the lower-cased path. *)
Definition components_in (full_path : text) : Prop :=
  Forall (fun part => is_substring (txt part) (lower full_path))
         ["appdata"; "roaming"; "microsoft"; "windows"; "powershell";
          "psreadline"]%string.

(** The run gets as far as an opened image. *)
Definition host_ready (h : host) (img_path : text) (img : image) : Prop :=
  pytsk3_installed h = true /\ pyewf_installed h = true /\
  path_exists h img_path = true /\ open_image h img_path = Returns img.

(** The success dictionary and the effects for the matches [all_results]. *)
Definition success_of (img_path out_dir : text) (all_results : list found)
  : result * list event :=
  (Success {| image_path := img_path;
              output_dir := out_dir;
              files_found := List.length all_results;
              files_extracted := List.length (artifacts_from out_dir 0 all_results);
              extracted_files := artifacts_from out_dir 0 all_results |},
   Mkdir out_dir :: writes_from out_dir 0 all_results).

(** ** Fixtures *)

Definition a_dir (name : string) (children : list entry) : entry :=
  Entry (AsStr (txt name))
        (Some {| meta_type := TSK_FS_META_TYPE_DIR; meta_size := 0 |})
        (Raises (txt "not a file")) Opens children.

Definition a_file (name : string) (data : outcome bytes) : entry :=
  Entry (AsStr (txt name))
        (Some {| meta_type := TSK_FS_META_TYPE_REG;
                 meta_size := match data with
                              | Returns d => N.of_nat (List.length d)
                              | Raises _ => 4096
                              end |})
        data OpenRaises [].

(** [<user>/AppData/Roaming/Microsoft/Windows/PowerShell/PSReadLine]
    holding [inside]. *)
Definition profile (user : string) (inside : list entry) : entry :=
  a_dir user [a_dir "AppData" [a_dir "Roaming" [a_dir "Microsoft"
    [a_dir "Windows" [a_dir "PowerShell" [a_dir "PSReadLine" inside]]]]]].

(** The three lines [Get-Process], the empty line, [Get-Service]. *)
Definition three_lines : bytes :=
  list_byte_of_string "Get-Process" ++ [x0a; x0a] ++
  list_byte_of_string "Get-Service" ++ [x0a].

Definition history (data : outcome bytes) : entry :=
  a_file "ConsoleHost_history.txt" data.

Definition bob_fs : directory :=
  (Opens, [a_dir "Users" [profile "bob" [history (Returns three_lines)]]]).

(** Two profiles; the history of the first one cannot be read. *)
Definition two_users_fs : directory :=
  (Opens,
   [a_dir "Users"
      [profile "alice" [history (Raises (txt "read error"))];
       profile "bob" [history (Returns three_lines)]]]).

(** A stray copy under an unrelated top-level directory. *)
Definition stray_fs : directory :=
  (Opens,
   [a_dir "Temp" [history (Returns three_lines)];
    a_dir "Users" [profile "bob" [history (Returns three_lines)]]]).

(** A top-level directory whose own name carries every component. *)
Definition lookalike_fs : directory :=
  (Opens,
   [a_dir "psreadline-powershell-windows-microsoft-roaming-appdata"
      [history (Returns three_lines)]]).

(** The root directory delivers its entries, then its iterator raises. *)
Definition failing_root_fs : directory :=
  (IterRaises (txt "read error"), snd bob_fs).

(** A zero-byte history file. *)
Definition empty_history_fs : directory :=
  (Opens, [a_dir "Users" [profile "bob" [history (Returns [])]]]).

Definition bare_image (fs : outcome directory) : image :=
  {| Volume_Info := Raises (txt "no volume system"); FS_Info := fun _ => fs |}.

(** Two allocated partitions; no filesystem opens on the first. *)
Definition two_partitions : list partition_info :=
  [{| flags := 1; desc := AsBytes (list_byte_of_string "Basic data partition");
      start := 2048 |};
   {| flags := 1; desc := AsStr (txt "NTFS (0x07)"); start := 1050624 |}].

Definition disk_image : image :=
  {| Volume_Info := Returns two_partitions;
     FS_Info := fun offset =>
       if (offset =? 1050624 * 512)%N then Returns bob_fs
       else Raises (txt "cannot determine file system type") |}.

Definition a_host (img : outcome image) : host :=
  {| pytsk3_installed := true; pyewf_installed := true;
     path_exists := fun _ => true; open_image := fun _ => img |}.

(** Stand-ins for the interpreter's tables, to run the model. *)
Definition no_unicode_lower : text -> text := fun s => s.
Definition replace_all : bytes -> text := map (fun _ => 65533%N).
Definition no_codec : bytes -> option text := fun _ => None.

(** ** The file tools *)

(** Reading a file opened in text mode translates the line ends: a
    carriage return, with the line feed that follows it if any, is read as
    one line feed. *)
Fixpoint universal_newlines (s : text) : text :=
  match s with
  | [] => []
  | c :: r =>
      if (c =? 13)%N then
        10%N :: match r with
                | d :: r' =>
                    if (d =? 10)%N then universal_newlines r'
                    else universal_newlines r
                | [] => []
                end
      else c :: universal_newlines r
  end.

(** [open(file_path, 'r', encoding=enc)] followed by [f.read()] on a file
    that holds [raw]; [None] for [UnicodeDecodeError]. *)
Definition read_as (enc : encoding) (raw : bytes) : option text :=
  option_map universal_newlines (decode enc raw).

(** [for encoding in encodings: try: with open(..) .. break / except:
    continue] on a file that can be opened. *)
Fixpoint try_open (encs : list encoding) (raw : bytes)
  : option (text * encoding) :=
  match encs with
  | [] => None
  | enc :: rest =>
      match read_as enc raw with
      | Some content => Some (content, enc)
      | None => try_open rest raw
      end
  end.

Definition decode_failure : text :=
  txt "Failed to decode file with any of the encodings: ['utf-8', 'utf-8-sig', 'cp949', 'euc-kr', 'latin-1']".

(** One element of the list that [parse_consolehost_history] returns. *)
Record history_line := {
  hl_line_number : nat;
  hl_command : text;
  hl_raw_line : text
}.

(** [for line_number, line in enumerate(lines, start=...)] of
    [parse_consolehost_history]. *)
Fixpoint collect_lines (line_number : nat) (lines : list text)
  : list history_line :=
  match lines with
  | [] => []
  | line :: rest =>
      let stripped := strip line in
      match stripped with
      | _ :: _ =>
          {| hl_line_number := line_number; hl_command := stripped;
             hl_raw_line := line |}
          :: collect_lines (S line_number) rest
      | [] => collect_lines (S line_number) rest
      end
  end.

(** [parse_consolehost_history(file_path)].  [open_file] is what opening
    the file gives: its bytes, or the [OSError] of [open].  [Raises] is
    the exception that leaves the function. *)
Definition parse_consolehost_history (open_file : text -> outcome bytes)
  (file_path : text) : outcome (list history_line) :=
  match open_file file_path with
  | Raises e => Raises e
  | Returns raw =>
      match try_open encodings raw with
      | None => Raises decode_failure
      | Some (content, _) => Returns (collect_lines 1 (splitlines content))
      end
  end.

(** The files as [extract_consolehost_history] sees them:
    [Path(p).exists()], [Path(p).is_file()], opening and reading,
    [Path(p).stat().st_size] and [str(Path(p).absolute())].  Each of
    them may raise an [OSError]. *)
Record file_host := {
  fh_exists : text -> outcome bool;
  fh_is_file : text -> outcome bool;
  fh_open : text -> outcome bytes;
  fh_stat_size : text -> outcome N;
  fh_absolute : text -> outcome text
}.

(** One element of ["commands"]; the line number is a key that may be
    missing. *)
Record command_entry := {
  ce_command : text;
  ce_line_number : option nat
}.

Record history_summary := {
  h_file_path : text;
  h_file_size_bytes : N;
  h_total_lines : nat;
  h_command_count : nat;
  h_encoding : option encoding;
  h_commands : list command_entry
}.

(** What a call of [extract_consolehost_history] does: it returns a
    failure dictionary or a success dictionary, or an exception leaves
    it. *)
Inductive history_result :=
| HistoryFailure (error : text)
| HistorySuccess (s : history_summary)
| HistoryRaises (exception : text).

Definition is_blank (stripped : text) : bool :=
  match stripped with
  | [] => true
  | _ :: _ => false
  end.

(** The loop over the lines in [extract_consolehost_history]. *)
Fixpoint command_entries (include_empty_lines include_line_numbers : bool)
  (line_number : nat) (lines : list text) : list command_entry :=
  match lines with
  | [] => []
  | line :: rest =>
      let stripped := strip line in
      let more := command_entries include_empty_lines include_line_numbers
                    (S line_number) rest in
      if is_blank stripped && negb include_empty_lines then more
      else
        {| ce_command := if negb (is_blank stripped) then stripped else [];
           ce_line_number := if include_line_numbers then Some line_number
                             else None |} :: more
  end.

(** The part of [extract_consolehost_history] inside its [try]; every
    exception raised there is caught and returned as the error. *)
Definition read_history (h : file_host) (input_path : text)
  (include_empty_lines include_line_numbers : bool) : history_result :=
  match fh_open h input_path with
  | Raises e => HistoryFailure e
  | Returns raw =>
      match try_open encodings raw with
      | None => HistoryFailure decode_failure
      | Some (content, used_encoding) =>
          let lines := splitlines content in
          let total_lines := List.length lines in
          let cmds := command_entries include_empty_lines
                        include_line_numbers 1 lines in
          match fh_stat_size h input_path with
          | Raises e => HistoryFailure e
          | Returns st_size =>
              match fh_absolute h input_path with
              | Raises e => HistoryFailure e
              | Returns absolute =>
                  HistorySuccess
                    {| h_file_path := absolute;
                       h_file_size_bytes := st_size;
                       h_total_lines := total_lines;
                       h_command_count :=
                         List.length
                           (filter (fun c => negb (is_blank (ce_command c)))
                                   cmds);
                       h_encoding := Some used_encoding;
                       h_commands := cmds |}
              end
          end
      end
  end.

(** [extract_consolehost_history(input_path, include_empty_lines,
    include_line_numbers)].  The two tests of the path come before the
    [try]: an exception of [exists()] or [is_file()] leaves the call. *)
Definition extract_consolehost_history (h : file_host) (input_path : text)
  (include_empty_lines include_line_numbers : bool) : history_result :=
  match fh_exists h input_path with
  | Raises e => HistoryRaises e
  | Returns false => HistoryFailure (txt "File not found: " ++ input_path)
  | Returns true =>
      match fh_is_file h input_path with
      | Raises e => HistoryRaises e
      | Returns false =>
          HistoryFailure (txt "Path is not a file: " ++ input_path)
      | Returns true =>
          read_history h input_path include_empty_lines include_line_numbers
      end
  end.

(** A host with one readable file; a path of more than 255 code points
    is refused by the system. *)
Definition one_file (path : string) (raw : bytes) : file_host :=
  {| fh_exists := fun p =>
       if 255 <? List.length p then Raises (txt "File name too long")
       else Returns (text_eqb p (txt path));
     fh_is_file := fun p =>
       if 255 <? List.length p then Raises (txt "File name too long")
       else Returns (text_eqb p (txt path));
     fh_open := fun p => if text_eqb p (txt path) then Returns raw
                         else Raises (txt "No such file or directory");
     fh_stat_size := fun _ => Returns (N.of_nat (List.length raw));
     fh_absolute := fun p => Returns (txt "/cases/" ++ p) |}.

(** [Get-Process], an empty line and [  Get-Service  ], with carriage
    return and line feed after each. *)
Definition windows_lines : bytes :=
  list_byte_of_string "Get-Process" ++ [x0d; x0a; x0d; x0a] ++
  list_byte_of_string "  Get-Service  " ++ [x0d; x0a].

(** A file that starts with the UTF-8 byte-order mark. *)
Definition bom_lines : bytes :=
  [xef; xbb; xbf] ++ list_byte_of_string "whoami" ++ [x0a].

(** The names of the files that a sequence of effects writes, and the
    matches whose content is read and not empty. *)
Definition written_names (evs : list event) : list text :=
  flat_map (fun ev => match ev with
                      | WriteFile _ name _ => [name]
                      | Mkdir _ => []
                      end) evs.

Definition extractable (r : found) : bool :=
  match extract_file_content (r_entry r) with
  | Some (_ :: _) => true
  | _ => false
  end.

(** The directories [names], one inside the other, lead from the listing
    [es] to the entry [leaf]: each of them has metadata of type directory
    and can be opened (its iterator may raise after the listing).  A name
    is what the entry's raw name, bytes or text, reads as. *)
Fixpoint leads_to (names : list text) (leaf : entry) (es : list entry) : Prop :=
  match names with
  | [] => In leaf es
  | name :: rest =>
      exists raw m rd st ls,
        In (Entry raw (Some m) rd st ls) es /\
        to_text raw = name /\
        meta_type m = TSK_FS_META_TYPE_DIR /\
        st <> OpenRaises /\
        leads_to rest leaf ls
  end.

(** The default profile tree with every name delivered as bytes, and a
    stand-in for the permissive decoding that reads ASCII bytes as they
    are. *)
Definition bytes_dir (name : string) (children : list entry) : entry :=
  Entry (AsBytes (list_byte_of_string name))
        (Some {| meta_type := TSK_FS_META_TYPE_DIR; meta_size := 0 |})
        (Raises (txt "not a file")) Opens children.

Definition bytes_history : entry :=
  Entry (AsBytes (list_byte_of_string "ConsoleHost_history.txt"))
        (Some {| meta_type := TSK_FS_META_TYPE_REG; meta_size := 25 |})
        (Returns three_lines) OpenRaises [].

Definition bytes_fs : directory :=
  (Opens,
   [bytes_dir "Users" [bytes_dir "bob" [bytes_dir "AppData"
      [bytes_dir "Roaming" [bytes_dir "Microsoft" [bytes_dir "Windows"
         [bytes_dir "PowerShell" [bytes_dir "PSReadLine"
            [bytes_history]]]]]]]]]).

Definition ascii_or_replace : bytes -> text :=
  map (fun b => if (Byte.to_N b <? 128)%N then Byte.to_N b else 65533%N).

(** Two allocated partitions with the same tree; the iterator of the
    first one's root directory raises after the listing. *)
Definition half_read_image : image :=
  {| Volume_Info := Returns two_partitions;
     FS_Info := fun offset =>
       if (offset =? 1050624 * 512)%N then Returns bob_fs
       else Returns failing_root_fs |}.

(** ** Basic facts about text *)

Lemma text_eqb_eq (a b : text) : text_eqb a b = true <-> a = b.
Proof.
  revert b; induction a as [|x a IH]; intros [|y b]; simpl;
    try (split; [discriminate | discriminate]); try tauto.
  rewrite andb_true_iff, N.eqb_eq, IH.
  split; [intros [-> ->]; reflexivity | intros H; inversion H; auto].
Qed.

Lemma text_eqb_refl (a : text) : text_eqb a a = true.
Proof. apply text_eqb_eq; reflexivity. Qed.

Lemma text_eqb_neq (a b : text) : text_eqb a b = false <-> a <> b.
Proof.
  rewrite <- text_eqb_eq. destruct (text_eqb a b); split; intros; congruence.
Qed.

Lemma mem_In (x : text) (l : list text) : mem x l = true <-> In x l.
Proof.
  unfold mem. rewrite existsb_exists. split.
  - intros [y [Hy E]]. apply text_eqb_eq in E. subst; assumption.
  - intros H. exists x. split; [assumption | apply text_eqb_refl].
Qed.

Lemma starts_with_prefix (p s : text) :
  starts_with p s = true <-> exists b, s = p ++ b.
Proof.
  revert s; induction p as [|x p IH]; intros s; simpl.
  - split; [intros _; exists s; reflexivity | reflexivity].
  - destruct s as [|y s].
    + split; [discriminate | intros [b Hb]; discriminate].
    + rewrite andb_true_iff, N.eqb_eq, IH. split.
      * intros [-> [b ->]]. exists b; reflexivity.
      * intros [b Hb]. inversion Hb; subst. split; [reflexivity | exists b; reflexivity].
Qed.

Lemma contains_substring (p s : text) :
  contains p s = true <-> is_substring p s.
Proof.
  unfold is_substring. induction s as [|y s IH].
  - simpl. rewrite orb_false_r, starts_with_prefix. split.
    + intros [b Hb]. exists [], b. exact Hb.
    + intros [a [b Hab]]. destruct a; [exists b; exact Hab | discriminate].
  - cbn [contains]. rewrite orb_true_iff, starts_with_prefix, IH. split.
    + intros [[b Hb] | [a [b Hab]]].
      * exists [], b. exact Hb.
      * exists (y :: a), b. simpl. rewrite Hab. reflexivity.
    + intros [a [b Hab]]. destruct a as [|z a].
      * left. exists b. exact Hab.
      * right. inversion Hab; subst. exists a, b. reflexivity.
Qed.

Lemma forallb_contains (L : list string) (x : text) :
  forallb (fun part => contains part x) (map txt L) = true <->
  Forall (fun part => is_substring (txt part) x) L.
Proof.
  induction L as [|s L IH]; simpl.
  - split; [constructor | reflexivity].
  - rewrite andb_true_iff, contains_substring, IH. split.
    + intros [H1 H2]. constructor; assumption.
    + intros H. inversion H; subst. split; assumption.
Qed.

Lemma all_parts_in_components (full_path : text) :
  all_parts_in (lower full_path) = true <-> components_in full_path.
Proof.
  unfold components_in.
  rewrite <- (forallb_contains _ (lower full_path)). reflexivity.
Qed.

Lemma entry_induction (P : entry -> Prop) :
  P Damaged ->
  (forall raw m rd st ls, Forall P ls -> P (Entry raw m rd st ls)) ->
  forall e, P e.
Proof.
  intros HD HE. fix IH 1. intros [|raw m rd st ls].
  - exact HD.
  - apply HE. revert ls. fix IHls 1. intros [|c ls].
    + constructor.
    + constructor; [apply IH | apply IHls].
Qed.

(** ** The walk *)

Lemma each_is_scan (full_path : text) (ls : list entry) (w : walk) :
  (fix each (es : list entry) (s : walk) {struct es} : walk :=
     match es with
     | [] => s
     | c :: es' => each es' (visit full_path c s)
     end) ls w = scan full_path ls w.
Proof.
  revert w; induction ls as [|c ls IH]; intros w; [reflexivity|].
  simpl. rewrite IH. reflexivity.
Qed.

(** A directory entry that passes the pruning test is handled by the
    recursive call on its own listing; the exception of its iterator, if
    any, is dropped by the caller's handler. *)
Lemma visit_recurse (path : text) raw m rd st ls (w : walk) :
  mem (to_text raw) [txt "."; txt ".."] = false ->
  meta_type m = TSK_FS_META_TYPE_DIR ->
  descend_if (to_text raw) (full_path_of path (to_text raw))
    || descend_elif path = true ->
  visit path (Entry raw (Some m) rd st ls) w =
  fst (find_consolehost_files (st, ls) (full_path_of path (to_text raw)) w).
Proof.
  intros Hdot Hm Hd. cbn [visit]. rewrite Hdot, Hm.
  unfold find_consolehost_files. cbn [fst snd].
  rewrite each_is_scan.
  apply orb_true_iff in Hd as [H1|H2].
  - rewrite H1. destruct st; reflexivity.
  - rewrite H2. destruct (descend_if _ _); destruct st; reflexivity.
Qed.

Lemma visit_skip (path : text) raw m rd st ls (w : walk) :
  meta_type m = TSK_FS_META_TYPE_DIR ->
  descend_if (to_text raw) (full_path_of path (to_text raw))
    || descend_elif path = false ->
  visit path (Entry raw (Some m) rd st ls) w = w.
Proof.
  intros Hm Hd. apply orb_false_iff in Hd as [H1 H2].
  cbn [visit]. rewrite Hm, H1, H2.
  destruct (mem _ _); reflexivity.
Qed.

Lemma scan_app (path : text) (es1 es2 : list entry) (w : walk) :
  scan path (es1 ++ es2) w = scan path es2 (scan path es1 w).
Proof. apply fold_left_app. Qed.

Lemma scan_cons (path : text) (e : entry) (es : list entry) (w : walk) :
  scan path (e :: es) w = scan path es (visit path e w).
Proof. reflexivity. Qed.

(** What a visit adds does not depend on what was found before. *)
Lemma scan_results_of_visits (path : text) (es : list entry) :
  Forall (fun e => forall p w, results (visit p e w) = results w ++ matches_of p e) es ->
  forall w, results (scan path es w) = results w ++ flat_map (matches_of path) es.
Proof.
  induction 1 as [|e es He _ IH]; intros w.
  - simpl. rewrite app_nil_r. reflexivity.
  - rewrite scan_cons, IH, He. simpl. rewrite app_assoc. reflexivity.
Qed.

Lemma visit_results (e : entry) :
  forall path w, results (visit path e w) = results w ++ matches_of path e.
Proof.
  induction e as [|raw m rd st ls IH] using entry_induction; intros path w.
  - simpl. rewrite app_nil_r. reflexivity.
  - unfold matches_of. cbn [visit].
    destruct (mem (to_text raw) _); [simpl; rewrite app_nil_r; reflexivity|].
    destruct m as [m|]; [|simpl; rewrite app_nil_r; reflexivity].
    destruct (meta_type m).
    + destruct (text_eqb _ _); [|simpl; rewrite app_nil_r; reflexivity].
      destruct (all_parts_in _); [reflexivity|simpl; rewrite app_nil_r; reflexivity].
    + rewrite !each_is_scan.
      assert (R : forall w0, results
                (match st with
                 | OpenRaises => log_open (full_path_of path (to_text raw)) w0
                 | _ => scan (full_path_of path (to_text raw)) ls
                          (log_open (full_path_of path (to_text raw)) w0)
                 end) = results w0 ++
                match st with
                | OpenRaises => []
                | _ => flat_map (matches_of (full_path_of path (to_text raw))) ls
                end).
      { intros w0. destruct st.
        - rewrite (scan_results_of_visits _ IH). reflexivity.
        - simpl. rewrite app_nil_r. reflexivity.
        - rewrite (scan_results_of_visits _ IH). reflexivity. }
      destruct (descend_if _ _); [|destruct (descend_elif _)];
        try (rewrite !R; reflexivity);
        simpl; rewrite app_nil_r; reflexivity.
    + simpl. rewrite app_nil_r. reflexivity.
Qed.

Lemma scan_results (path : text) (es : list entry) (w : walk) :
  results (scan path es w) = results w ++ flat_map (matches_of path) es.
Proof.
  apply scan_results_of_visits. apply Forall_forall. intros e _.
  apply visit_results.
Qed.

Lemma descend_pruning_rule (path name : text) :
  descend_if name (full_path_of path name) || descend_elif path = true <->
  pruning_rule path name.
Proof.
  unfold descend_if, descend_elif, pruning_rule, target_path_parts.
  rewrite !orb_true_iff, !mem_In, contains_substring. simpl.
  split; intros H;
    repeat match type of H with
           | _ \/ _ => destruct H as [H|H]
           | False => destruct H
           end;
    auto 12 using eq_sym.
Qed.

Lemma dot_names_not_target (name : text) :
  mem name [txt "."; txt ".."] = true ->
  lower name <> txt "consolehost_history.txt".
Proof.
  rewrite mem_In. intros [<-|[<-|[]]]; vm_compute; discriminate.
Qed.

(** Every recorded match is a regular file with the target name whose
    full path carries every required component. *)
Lemma matches_of_sound (e : entry) :
  forall path r, In r (matches_of path e) ->
    components_in (r_path r) /\
    exists dir raw m rd st ls,
      r_entry r = Entry raw (Some m) rd st ls /\
      meta_type m = TSK_FS_META_TYPE_REG /\
      r_path r = full_path_of dir (to_text raw) /\
      lower (to_text raw) = txt "consolehost_history.txt".
Proof.
  induction e as [|raw m rd st ls IH] using entry_induction; intros path r.
  - intros [].
  - unfold matches_of. cbn [visit].
    destruct (mem (to_text raw) _); [intros []|].
    destruct m as [m|]; [|intros []].
    destruct (meta_type m) eqn:Hm.
    + destruct (text_eqb _ _) eqn:Hn; [|intros []].
      destruct (all_parts_in _) eqn:Hp; [|intros []].
      intros [<-|[]]. cbn [r_path r_entry]. split.
      * apply all_parts_in_components; assumption.
      * exists path, raw, m, rd, st, ls. repeat split; try assumption.
        apply text_eqb_eq; assumption.
    + rewrite !each_is_scan.
      assert (R : In r (results
                (match st with
                 | OpenRaises => log_open (full_path_of path (to_text raw)) start_walk
                 | _ => scan (full_path_of path (to_text raw)) ls
                          (log_open (full_path_of path (to_text raw)) start_walk)
                 end)) ->
              exists c, In c ls /\ In r (matches_of (full_path_of path (to_text raw)) c)).
      { destruct st; try (intros []); rewrite scan_results; simpl;
          rewrite in_flat_map; trivial. }
      assert (K : forall c, In c ls ->
                In r (matches_of (full_path_of path (to_text raw)) c) ->
                components_in (r_path r) /\
                exists dir raw m rd st ls,
                  r_entry r = Entry raw (Some m) rd st ls /\
                  meta_type m = TSK_FS_META_TYPE_REG /\
                  r_path r = full_path_of dir (to_text raw) /\
                  lower (to_text raw) = txt "consolehost_history.txt").
      { intros c Hc. rewrite Forall_forall in IH. apply (IH c Hc). }
      destruct (descend_if _ _); [|destruct (descend_elif _)];
        try (intros []);
        intros H; apply R in H as [c [Hc H]]; exact (K c Hc H).
    + intros [].
Qed.

Lemma find_results (d : directory) (path : text) (w : walk) :
  results (fst (find_consolehost_files d path w)) =
  results w ++ match fst d with
               | OpenRaises => []
               | _ => flat_map (matches_of path) (snd d)
               end.
Proof.
  unfold find_consolehost_files.
  destruct (fst d); cbn [fst]; try rewrite scan_results; simpl;
    rewrite ?app_nil_r; reflexivity.
Qed.

Lemma find_sound (d : directory) (path : text) (r : found) :
  In r (results (fst (find_consolehost_files d path start_walk))) ->
  components_in (r_path r) /\
  exists dir raw m rd st ls,
    r_entry r = Entry raw (Some m) rd st ls /\
    meta_type m = TSK_FS_META_TYPE_REG /\
    r_path r = full_path_of dir (to_text raw) /\
    lower (to_text raw) = txt "consolehost_history.txt".
Proof.
  rewrite find_results. simpl.
  destruct (fst d); try (intros []);
    rewrite in_flat_map; intros [c [_ H]]; exact (matches_of_sound c _ _ H).
Qed.

(** Every path handed to [open_dir] below the start is the full path of
    a directory that one of the four conditions allows. *)
Lemma scan_opened_of_visits (path : text) (es : list entry) :
  Forall (fun e => forall p w q, In q (opened (visit p e w)) ->
            In q (opened w) \/
            exists dir name, q = full_path_of dir name /\ pruning_rule dir name) es ->
  forall w q, In q (opened (scan path es w)) ->
    In q (opened w) \/
    exists dir name, q = full_path_of dir name /\ pruning_rule dir name.
Proof.
  induction 1 as [|e es He _ IH]; intros w q; [auto|].
  rewrite scan_cons. intros H. apply IH in H as [H|H]; [|auto].
  apply He in H. exact H.
Qed.

Lemma visit_opened (e : entry) :
  forall path w q, In q (opened (visit path e w)) ->
    In q (opened w) \/
    exists dir name, q = full_path_of dir name /\ pruning_rule dir name.
Proof.
  induction e as [|raw m rd st ls IH] using entry_induction; intros path w q.
  - auto.
  - destruct (mem (to_text raw) [txt "."; txt ".."]) eqn:Hdot.
    { cbn [visit]. rewrite Hdot. auto. }
    destruct m as [m|]; [|cbn [visit]; rewrite Hdot; auto].
    destruct (meta_type m) eqn:Hm.
    + cbn [visit]. rewrite Hdot, Hm.
      destruct (text_eqb _ _); [|auto]. destruct (all_parts_in _); auto.
    + destruct (descend_if (to_text raw) (full_path_of path (to_text raw))
                || descend_elif path) eqn:Hd.
      * rewrite visit_recurse by assumption.
        assert (A : exists dir name,
                   full_path_of path (to_text raw) = full_path_of dir name /\
                   pruning_rule dir name).
        { exists path, (to_text raw). split; [reflexivity|].
          apply descend_pruning_rule; assumption. }
        unfold find_consolehost_files. cbn [fst snd].
        assert (L : In q (opened (log_open (full_path_of path (to_text raw)) w)) ->
                    In q (opened w) \/
                    exists dir name, q = full_path_of dir name /\ pruning_rule dir name).
        { simpl. rewrite in_app_iff. intros [H|[<-|[]]]; auto. }
        destruct st; cbn [fst]; intros H; auto;
          apply (scan_opened_of_visits _ IH) in H as [H|H]; auto.
      * rewrite visit_skip by assumption. auto.
    + cbn [visit]. rewrite Hdot, Hm. auto.
Qed.

Lemma find_opened (d : directory) (path : text) (q : text) :
  In q (opened (fst (find_consolehost_files d path start_walk))) ->
  q = path \/
  exists dir name, q = full_path_of dir name /\ pruning_rule dir name.
Proof.
  assert (L : In q (opened (log_open path start_walk)) -> q = path).
  { simpl. intros [H|[]]; auto. }
  unfold find_consolehost_files.
  destruct (fst d); cbn [fst]; intros H; auto;
    apply (scan_opened_of_visits path (es := snd d)) in H as [H|H]; auto;
    apply Forall_forall; intros e _; apply visit_opened.
Qed.

(** ** Decoding *)

Lemma try_encodings_first (encs : list encoding) (data : bytes) content enc :
  try_encodings encs data = Some (content, enc) ->
  decode enc data = Some content /\
  exists before after,
    encs = before ++ enc :: after /\
    Forall (fun e => decode e data = None) before.
Proof.
  induction encs as [|e encs IH]; simpl; [discriminate|].
  destruct (decode e data) as [c|] eqn:He.
  - intros H; inversion H; subst. split; [assumption|].
    exists [], encs. split; [reflexivity | constructor].
  - intros H. destruct (IH H) as [Hd [before [after [-> Hb]]]].
    split; [assumption|].
    exists (e :: before), after. split; [reflexivity|].
    constructor; assumption.
Qed.

Lemma try_encodings_total (data : bytes) :
  exists content enc, try_encodings encodings data = Some (content, enc).
Proof.
  unfold encodings. simpl.
  destruct (utf8_decode data); [eauto|].
  destruct (utf8_sig_decode data); [eauto|].
  destruct (cp949_decode data); [eauto|].
  destruct (euc_kr_decode data); eauto.
Qed.

(** ** Lines *)

Lemma parse_commands_lines (content : text) :
  parse_commands content = number_lines 1 (splitlines content).
Proof. destruct content; reflexivity. Qed.

Lemma number_lines_In (lines : list text) :
  forall k n c,
    In {| line_number := n; command_text := c |} (number_lines k lines) <->
    k <= n /\
    exists line, nth_error lines (n - k) = Some line /\ c = strip line /\ c <> [].
Proof.
  induction lines as [|l lines IH]; intros k n c.
  - simpl. split; [intros [] | intros [_ [line [H _]]]].
    destruct (n - k); discriminate.
  - assert (T : In {| line_number := n; command_text := c |}
                   (number_lines (S k) lines) <->
                 k < n /\ exists line, nth_error lines (n - S k) = Some line /\
                                       c = strip line /\ c <> [])
      by (rewrite IH; reflexivity).
    split.
    + intros H.
      assert (H' : (n = k /\ c = strip l /\ c <> []) \/
                   In {| line_number := n; command_text := c |}
                      (number_lines (S k) lines)).
      { cbn [number_lines] in H. destruct (strip l) as [|x xs] eqn:Hs.
        - right; exact H.
        - destruct H as [H|H]; [left | right; exact H].
          inversion H; subst. repeat split; discriminate. }
      destruct H' as [[-> [-> Hne]] | H'].
      * split; [lia|]. exists l. rewrite Nat.sub_diag. auto.
      * apply T in H' as [Hlt [line [Hnth Hc]]]. split; [lia|].
        exists line. replace (n - k) with (S (n - S k)) by lia. auto.
    + intros [Hle [line [Hnth [Hc Hne]]]].
      destruct (Nat.eq_dec n k) as [->|Hnk].
      * rewrite Nat.sub_diag in Hnth. inversion Hnth; subst line.
        cbn [number_lines]. destruct (strip l) as [|x xs] eqn:Hs.
        -- congruence.
        -- left. rewrite Hc. reflexivity.
      * replace (n - k) with (S (n - S k)) in Hnth by lia.
        assert (H' : In {| line_number := n; command_text := c |}
                        (number_lines (S k) lines)).
        { apply T. split; [lia|]. exists line. auto. }
        cbn [number_lines]. destruct (strip l); [exact H' | right; exact H'].
Qed.

Lemma number_lines_bound (lines : list text) :
  forall k, Forall (fun n => k <= n) (map line_number (number_lines k lines)).
Proof.
  induction lines as [|l lines IH]; intros k; [constructor|].
  assert (T : Forall (fun n => k <= n)
                (map line_number (number_lines (S k) lines))).
  { eapply Forall_impl; [|apply IH]. intros a Ha; cbv beta in *; lia. }
  cbn [number_lines]. destruct (strip l); [exact T|].
  constructor; [apply Nat.le_refl | exact T].
Qed.

Lemma number_lines_increasing (lines : list text) :
  forall k, StronglySorted lt (map line_number (number_lines k lines)).
Proof.
  induction lines as [|l lines IH]; intros k; [constructor|].
  cbn [number_lines]. destruct (strip l); [apply IH|].
  constructor; [apply IH|].
  eapply Forall_impl; [|apply (number_lines_bound lines (S k))].
  intros a Ha; cbn [line_number] in *; lia.
Qed.

Lemma number_lines_length (lines : list text) :
  forall k,
    List.length (number_lines k lines) =
    List.length (filter (fun line => negb (text_eqb (strip line) [])) lines).
Proof.
  induction lines as [|l lines IH]; intros k; [reflexivity|].
  cbn [number_lines filter]. destruct (strip l); simpl; rewrite IH; reflexivity.
Qed.

(** ** The extraction loop *)

Lemma process_match_effect (out_dir : text) (i : nat) (r : found) (st : loop_state) :
  exists cv,
    process_match out_dir i r st =
    inl {| events := events st ++ write_of out_dir i r;
           extracted := extracted st ++ artifact_of out_dir i r;
           content_var := cv |}.
Proof.
  unfold process_match, write_of, artifact_of.
  destruct (extract_file_content (r_entry r)) as [[|b data]|].
  - exists (content_var st). rewrite !app_nil_r. destruct st; reflexivity.
  - destruct (try_encodings_total (b :: data)) as [content [enc ->]].
    eexists. reflexivity.
  - exists (content_var st). rewrite !app_nil_r. destruct st; reflexivity.
Qed.

Lemma extract_all_effect (out_dir : text) (rs : list found) :
  forall i st, exists cv,
    extract_all out_dir i rs st =
    inl {| events := events st ++ writes_from out_dir i rs;
           extracted := extracted st ++ artifacts_from out_dir i rs;
           content_var := cv |}.
Proof.
  induction rs as [|r rs IH]; intros i st.
  - exists (content_var st). simpl. rewrite !app_nil_r. destruct st; reflexivity.
  - cbn [extract_all writes_from artifacts_from].
    destruct (process_match_effect out_dir i r st) as [cv ->].
    destruct (IH (S i) {| events := events st ++ write_of out_dir i r;
                          extracted := extracted st ++ artifact_of out_dir i r;
                          content_var := cv |}) as [cv' ->].
    exists cv'. cbn [events extracted]. rewrite <- !app_assoc. reflexivity.
Qed.

Lemma artifacts_from_length (out_dir : text) (rs : list found) :
  forall i, List.length (artifacts_from out_dir i rs) <= List.length rs.
Proof.
  induction rs as [|r rs IH]; intros i; [apply Nat.le_refl|].
  cbn [artifacts_from]. rewrite length_app. specialize (IH (S i)).
  assert (List.length (artifact_of out_dir i r) <= 1).
  { unfold artifact_of.
    destruct (extract_file_content _) as [[|b d]|]; [simpl; lia| |simpl; lia].
    destruct (try_encodings encodings (b :: d)) as [[? ?]|]; simpl; lia. }
  simpl. lia.
Qed.

(** ** Partitions and the whole run *)

Lemma scan_partitions_acc (img : image) (wanted : option Z) (parts : list partition_info) :
  forall k acc,
    scan_partitions img wanted k parts acc =
    acc ++ scan_partitions img wanted k parts [].
Proof.
  induction parts as [|p parts IH]; intros k acc; simpl.
  - rewrite app_nil_r. reflexivity.
  - rewrite IH. rewrite (IH _ (partition_matches img wanted k p)).
    rewrite app_assoc. reflexivity.
Qed.

Lemma scan_partitions_cons (img : image) (wanted : option Z) k p parts :
  scan_partitions img wanted k (p :: parts) [] =
  partition_matches img wanted k p ++ scan_partitions img wanted (S k) parts [].
Proof. simpl. apply scan_partitions_acc. Qed.

Lemma scan_partitions_app (img : image) (wanted : option Z) (ps1 ps2 : list partition_info) :
  forall k,
    scan_partitions img wanted k (ps1 ++ ps2) [] =
    scan_partitions img wanted k ps1 [] ++
    scan_partitions img wanted (k + List.length ps1) ps2 [].
Proof.
  induction ps1 as [|p ps1 IH]; intros k.
  - simpl. rewrite Nat.add_0_r. reflexivity.
  - rewrite <- app_comm_cons, !scan_partitions_cons, IH, <- app_assoc.
    simpl. rewrite Nat.add_succ_r. reflexivity.
Qed.

Lemma partition_matches_located (img : image) (wanted : option Z) k p :
  List.length (partition_matches img wanted k p) =
  list_sum (map located
              (if selected wanted k p
               then searched_at img (start p * 512)%N else [])).
Proof.
  unfold partition_matches, selected, searched_at.
  destruct (flags p =? TSK_VS_PART_FLAG_ALLOC)%N; [|reflexivity].
  cbn [negb andb].
  assert (L : forall fs,
             List.length
               (match find_consolehost_files fs (txt "/") start_walk with
                | (w, None) => map (tag (to_text (desc p)) k) (results w)
                | (_, Some _) => []
                end) =
             list_sum (map located (if search_completes fs then [fs] else []))).
  { intros fs. unfold find_consolehost_files, located, search_completes.
    destruct (fst fs) eqn:Hfs; cbn [fst map list_sum];
      rewrite ?length_map; unfold find_consolehost_files;
      rewrite ?Hfs; unfold list_sum; cbn [fst fold_right]; rewrite ?Nat.add_0_r; reflexivity. }
  destruct wanted as [p0|]; [destruct (Z.of_nat k =? p0)%Z|]; cbn [negb];
    try reflexivity;
    (destruct (FS_Info img (start p * 512)%N) as [fs|msg]; [|reflexivity];
     apply L).
Qed.

Lemma scan_partitions_located (img : image) (wanted : option Z) (parts : list partition_info) :
  forall k,
    List.length (scan_partitions img wanted k parts []) =
    list_sum (map located (searched_partitions img wanted k parts)).
Proof.
  induction parts as [|p parts IH]; intros k; [reflexivity|].
  rewrite scan_partitions_cons, length_app, IH, partition_matches_located.
  cbn [searched_partitions]. rewrite map_app, list_sum_app. reflexivity.
Qed.

Lemma whole_image_located (img : image) (all_results : list found) :
  scan_whole_image img = Returns all_results ->
  List.length all_results = list_sum (map located (searched_at img 0)).
Proof.
  unfold scan_whole_image, searched_at, located, search_completes.
  destruct (FS_Info img 0) as [fs|msg]; [|discriminate].
  unfold find_consolehost_files.
  destruct (fst fs) eqn:Hfs; intros H; inversion H;
    unfold list_sum; cbn [map fold_right]; rewrite ?Hfs; cbn [fst];
    rewrite Nat.add_0_r; reflexivity.
Qed.

Lemma gather_located (img : image) (wanted : option Z) (all_results : list found) :
  gather img wanted = Returns all_results ->
  List.length all_results =
  list_sum (map located (searched_filesystems img wanted)).
Proof.
  unfold gather, probe, searched_filesystems.
  destruct (Volume_Info img) as [[|p ps]|msg];
    try apply whole_image_located.
  intros H. injection H as <-.
  exact (scan_partitions_located img wanted (p :: ps) 0).
Qed.

Lemma run_returns (h : host) (img_path out_dir : text) (wanted : option Z)
      (img : image) (all_results : list found) :
  host_ready h img_path img ->
  gather img wanted = Returns all_results ->
  extract_from_image h img_path out_dir wanted =
  success_of img_path out_dir all_results.
Proof.
  intros (H1 & H2 & H3 & H4) Hg. unfold extract_from_image, success_of.
  rewrite H1, H2, H3, H4, Hg. cbn [negb].
  destruct (extract_all_effect out_dir all_results 0
              {| events := [Mkdir out_dir]; extracted := [];
                 content_var := None |}) as [cv ->].
  reflexivity.
Qed.

Lemma run_fails (h : host) (img_path out_dir : text) (wanted : option Z)
      (img : image) (e : text) :
  host_ready h img_path img ->
  gather img wanted = Raises e ->
  extract_from_image h img_path out_dir wanted =
  (Failure (txt "Could not process filesystem: " ++ e), [Mkdir out_dir]).
Proof.
  intros (H1 & H2 & H3 & H4) Hg. unfold extract_from_image.
  rewrite H1, H2, H3, H4, Hg. reflexivity.
Qed.

Lemma run_success_inv (h : host) (img_path out_dir : text) (wanted : option Z)
      (s : summary) (evs : list event) :
  extract_from_image h img_path out_dir wanted = (Success s, evs) ->
  exists img all_results,
    host_ready h img_path img /\
    gather img wanted = Returns all_results /\
    (Success s, evs) = success_of img_path out_dir all_results.
Proof.
  unfold extract_from_image, host_ready.
  destruct (pytsk3_installed h); [|discriminate].
  destruct (pyewf_installed h); [|discriminate].
  destruct (path_exists h img_path); [|discriminate]. cbn [negb].
  destruct (open_image h img_path) as [img|e]; [|discriminate].
  destruct (gather img wanted) as [all_results|e] eqn:Hg; [|discriminate].
  destruct (extract_all_effect out_dir all_results 0
              {| events := [Mkdir out_dir]; extracted := [];
                 content_var := None |}) as [cv ->].
  intros H. exists img, all_results.
  split; [repeat split|]. split; [exact Hg|]. symmetry. exact H.
Qed.

(** ** Match by match *)

Lemma writes_from_app (out_dir : text) (rs1 rs2 : list found) :
  forall i,
    writes_from out_dir i (rs1 ++ rs2) =
    writes_from out_dir i rs1 ++ writes_from out_dir (i + List.length rs1) rs2.
Proof.
  induction rs1 as [|r rs1 IH]; intros i; simpl.
  - rewrite Nat.add_0_r. reflexivity.
  - rewrite IH, <- app_assoc, Nat.add_succ_r. reflexivity.
Qed.

Lemma artifacts_from_app (out_dir : text) (rs1 rs2 : list found) :
  forall i,
    artifacts_from out_dir i (rs1 ++ rs2) =
    artifacts_from out_dir i rs1 ++
    artifacts_from out_dir (i + List.length rs1) rs2.
Proof.
  induction rs1 as [|r rs1 IH]; intros i; simpl.
  - rewrite Nat.add_0_r. reflexivity.
  - rewrite IH, <- app_assoc, Nat.add_succ_r. reflexivity.
Qed.

Lemma extract_all_app (out_dir : text) (rs1 rs2 : list found) :
  forall i st,
    extract_all out_dir i (rs1 ++ rs2) st =
    match extract_all out_dir i rs1 st with
    | inl st1 => extract_all out_dir (i + List.length rs1) rs2 st1
    | inr evs => inr evs
    end.
Proof.
  induction rs1 as [|r rs1 IH]; intros i st; simpl.
  - rewrite Nat.add_0_r. reflexivity.
  - destruct (process_match out_dir i r st) as [st'|evs]; [|reflexivity].
    rewrite IH, Nat.add_succ_r. reflexivity.
Qed.

Lemma nth_error_split_at (A : Type) (l : list A) (k : nat) (x : A) :
  nth_error l k = Some x ->
  exists pre post, l = pre ++ x :: post /\ List.length pre = k.
Proof.
  intros H. destruct (nth_error_split l k H) as [pre [post [E L]]].
  exists pre, post. auto.
Qed.

Lemma writes_from_nth (out_dir : text) (rs : list found) (i k : nat) r b data :
  nth_error rs k = Some r ->
  extract_file_content (r_entry r) = Some (b :: data) ->
  In (WriteFile out_dir
        (output_filename (get_username_from_path (r_path r)) (i + k))
        (b :: data))
     (writes_from out_dir i rs).
Proof.
  intros Hk Hc. destruct (nth_error_split_at _ _ Hk) as [pre [post [-> <-]]].
  rewrite writes_from_app. apply in_or_app. right.
  cbn [writes_from]. apply in_or_app. left.
  unfold write_of. rewrite Hc. left. reflexivity.
Qed.

Lemma artifacts_from_nth (out_dir : text) (rs : list found) (i k : nat) r b data :
  nth_error rs k = Some r ->
  extract_file_content (r_entry r) = Some (b :: data) ->
  exists a,
    In a (artifacts_from out_dir i rs) /\
    source_path a = r_path r /\
    username a = get_username_from_path (r_path r) /\
    output_path a =
      {| op_dir := out_dir;
         op_name := output_filename (get_username_from_path (r_path r)) (i + k) |}.
Proof.
  intros Hk Hc. destruct (nth_error_split_at _ _ Hk) as [pre [post [-> <-]]].
  destruct (try_encodings_total (b :: data)) as [content [enc He]].
  eexists. split.
  - rewrite artifacts_from_app. apply in_or_app. right.
    cbn [artifacts_from]. apply in_or_app. left.
    unfold artifact_of. rewrite Hc, He. left. reflexivity.
  - repeat split.
Qed.

Lemma writes_from_inv (out_dir : text) (rs : list found) :
  forall i dir name data,
    In (WriteFile dir name data) (writes_from out_dir i rs) ->
    dir = out_dir /\ data <> [] /\
    exists k r,
      nth_error rs k = Some r /\
      extract_file_content (r_entry r) = Some data /\
      name = output_filename (get_username_from_path (r_path r)) (i + k).
Proof.
  induction rs as [|r rs IH]; intros i dir name data; [intros []|].
  cbn [writes_from]. rewrite in_app_iff. intros [H|H].
  - unfold write_of in H.
    destruct (extract_file_content (r_entry r)) as [[|b d]|] eqn:Hc;
      try (destruct H; fail).
    destruct H as [H|[]]. inversion H; subst.
    split; [reflexivity|]. split; [discriminate|].
    exists 0, r. rewrite Nat.add_0_r. auto.
  - apply IH in H as (Hd & Hne & k & r' & Hk & Hc & Hn).
    split; [assumption|]. split; [assumption|].
    exists (S k), r'. rewrite Nat.add_succ_r. auto.
Qed.

(** ** User names *)

Lemma username_loop_none (path_parts rest : list text) :
  forall i,
    Forall (fun p => lower p <> txt "users") rest ->
    username_loop path_parts i rest = txt "unknown".
Proof.
  induction rest as [|p rest IH]; intros i H; [reflexivity|].
  inversion H; subst. cbn [username_loop].
  apply text_eqb_neq in H2. rewrite H2. cbn [andb]. apply IH; assumption.
Qed.

Lemma username_loop_next (pre : list text) :
  forall seen u nxt post,
    Forall (fun p => lower p <> txt "users") pre ->
    lower u = txt "users" ->
    username_loop (seen ++ pre ++ u :: nxt :: post) (List.length seen)
                  (pre ++ u :: nxt :: post) = nxt.
Proof.
  induction pre as [|p pre IH]; intros seen u nxt post Hpre Hu.
  - cbn [app username_loop]. rewrite Hu, text_eqb_refl. cbn [andb].
    assert (L : (List.length seen + 1 <? List.length (seen ++ u :: nxt :: post)) = true).
    { apply Nat.ltb_lt. rewrite length_app. simpl. lia. }
    rewrite L.
    replace (seen ++ u :: nxt :: post) with ((seen ++ [u]) ++ nxt :: post)
      by (rewrite <- app_assoc; reflexivity).
    replace (List.length seen + 1) with (List.length (seen ++ [u]))
      by (rewrite length_app; reflexivity).
    apply nth_middle.
  - inversion Hpre; subst. cbn [app username_loop].
    apply text_eqb_neq in H1. rewrite H1. cbn [andb].
    specialize (IH (seen ++ [p]) u nxt post H2 Hu).
    rewrite <- app_assoc, length_app, Nat.add_1_r in IH. exact IH.
Qed.

Lemma username_loop_last (pre : list text) :
  forall seen u,
    Forall (fun p => lower p <> txt "users") pre ->
    username_loop (seen ++ pre ++ [u]) (List.length seen) (pre ++ [u])
    = txt "unknown".
Proof.
  induction pre as [|p pre IH]; intros seen u Hpre.
  - cbn [app username_loop].
    assert (L : (List.length seen + 1 <? List.length (seen ++ [u])) = false).
    { apply Nat.ltb_ge. rewrite length_app. simpl. lia. }
    rewrite L, andb_false_r. reflexivity.
  - inversion Hpre; subst. cbn [app username_loop].
    apply text_eqb_neq in H1. rewrite H1. cbn [andb].
    specialize (IH (seen ++ [p]) u H2).
    rewrite <- app_assoc, length_app, Nat.add_1_r in IH. exact IH.
Qed.

(** ** The claims *)

(** C2. After decoding, the text is split into lines; every line that is
    not empty once its surrounding white space is trimmed gives one
    command record, which carries the trimmed line and the line's 1-based
    number in the text; empty lines give no record and still count in the
    numbering.  The records come in the order of the lines, and the
    artifact stores this list and its length.  For the file with the three
    lines [Get-Process], the empty line, [Get-Service], found in bob's
    profile, the run reports one artifact with [command_count = 2] and the
    commands [{1, Get-Process}; {3, Get-Service}]. *)
Theorem C2_commands_from_lines :
  forall content : text,
    (forall n c,
        In {| line_number := n; command_text := c |} (parse_commands content) <->
        1 <= n /\
        exists line,
          nth_error (splitlines content) (n - 1) = Some line /\
          c = strip line /\ c <> []) /\
    StronglySorted lt (map line_number (parse_commands content)) /\
    List.length (parse_commands content) =
      List.length (filter (fun line => negb (text_eqb (strip line) []))
                          (splitlines content)) /\
    (forall out_dir i r st st' a,
        process_match out_dir i r st = inl st' ->
        In a (extracted st') ->
        In a (extracted st) \/
        exists data text_of_file enc,
          extract_file_content (r_entry r) = Some data /\
          try_encodings encodings data = Some (text_of_file, enc) /\
          commands a = parse_commands text_of_file /\
          command_count a = List.length (commands a)) /\
    match extract_from_image (a_host (Returns (bare_image (Returns bob_fs))))
            (txt "disk.dd") (txt "out") None with
    | (Success s, _) =>
        files_found s = 1 /\ files_extracted s = 1 /\
        map username (extracted_files s) = [txt "bob"] /\
        map command_count (extracted_files s) = [2] /\
        map commands (extracted_files s) =
          [[{| line_number := 1; command_text := txt "Get-Process" |};
            {| line_number := 3; command_text := txt "Get-Service" |}]]
    | _ => False
    end.
Proof.
  intros content. rewrite parse_commands_lines.
  split; [intros n c; apply number_lines_In|].
  split; [apply number_lines_increasing|].
  split; [apply number_lines_length|].
  split.
  - intros out_dir i r st st' a Hp Ha.
    destruct (process_match_effect out_dir i r st) as [cv E].
    rewrite E in Hp. injection Hp as <-. cbn [extracted] in Ha.
    apply in_app_or in Ha as [Ha|Ha]; [left; assumption|right].
    unfold artifact_of in Ha.
    destruct (extract_file_content (r_entry r)) as [[|b d]|] eqn:Hc;
      try (destruct Ha; fail).
    destruct (try_encodings encodings (b :: d)) as [[t enc]|] eqn:He;
      try (destruct Ha; fail).
    destruct Ha as [<-|[]]. exists (b :: d), t, enc. repeat split. exact He.
  - vm_compute. repeat split.
Qed.

(** C3. During the search a regular-file entry is recorded as a match if
    and only if its lower-cased name equals [consolehost_history.txt] and
    each of appdata, roaming, microsoft, windows, powershell, psreadline
    occurs as a substring of the entry's lower-cased full path; otherwise
    the entry leaves the results as they were.  Every match that a search
    returns is such an entry. *)
Theorem C3_match_condition :
  forall path raw size rd st ls w,
    let e := Entry raw (Some {| meta_type := TSK_FS_META_TYPE_REG;
                                meta_size := size |}) rd st ls in
    let name := to_text raw in
    let full_path := full_path_of path name in
    let hit := {| r_path := full_path; r_size := size; r_entry := e;
                  r_partition := None; r_partition_num := None |} in
    let required := lower name = txt "consolehost_history.txt" /\
                    components_in full_path in
    (required <-> results (visit path e w) = results w ++ [hit]) /\
    (~ required <-> results (visit path e w) = results w) /\
    (forall d start_path r,
        In r (results (fst (find_consolehost_files d start_path start_walk))) ->
        components_in (r_path r) /\
        exists dir raw' m rd' st' ls',
          r_entry r = Entry raw' (Some m) rd' st' ls' /\
          meta_type m = TSK_FS_META_TYPE_REG /\
          r_path r = full_path_of dir (to_text raw') /\
          lower (to_text raw') = txt "consolehost_history.txt").
Proof.
  intros path raw size rd st ls w e name full_path hit required.
  assert (V : results (visit path e w) =
              if text_eqb (lower name) target_filename
                 && all_parts_in (lower full_path)
              then results w ++ [hit] else results w).
  { subst e. cbn [visit meta_type meta_size]. fold name. fold full_path.
    destruct (mem name [txt "."; txt ".."]) eqn:Hdot.
    - apply dot_names_not_target in Hdot. apply text_eqb_neq in Hdot.
      unfold target_filename. rewrite Hdot. reflexivity.
    - destruct (text_eqb (lower name) target_filename); [|reflexivity].
      destruct (all_parts_in (lower full_path)); reflexivity. }
  assert (R : required <->
              text_eqb (lower name) target_filename
              && all_parts_in (lower full_path) = true).
  { unfold required. rewrite andb_true_iff, text_eqb_eq, all_parts_in_components.
    reflexivity. }
  assert (NE : results w ++ [hit] <> results w).
  { intros E. apply (f_equal (@List.length found)) in E.
    rewrite length_app in E. simpl in E. lia. }
  rewrite V.
  destruct (text_eqb (lower name) target_filename
            && all_parts_in (lower full_path)).
  - split; [|split].
    + split; [reflexivity | intros _; apply R; reflexivity].
    + split; [intros N; exfalso; apply N, R; reflexivity
             | intros E; exfalso; exact (NE E)].
    + intros d p r. apply find_sound.
  - split; [|split].
    + split; [intros H; apply R in H; discriminate
             | intros E; exfalso; apply NE; symmetry; exact E].
    + split; [reflexivity | intros _ H; apply R in H; discriminate].
    + intros d p r. apply find_sound.
Qed.

(** C4. The search enters a directory only when one of the four pruning
    conditions holds: its lower-cased name is [users] or [documents and
    settings]; its lower-cased name is one of the required components;
    its lower-cased full path contains [appdata]; or the lower-cased path
    of the directory being listed is [/users] or [/documents and
    settings].  A directory that fails all four is left alone, every path
    opened below the start is one that the conditions allow, and every
    file found has all required components in its path: a stray
    [ConsoleHost_history.txt] under [/Temp] is not found, while one under
    a top-level directory whose name carries every component is. *)
Theorem C4_pruning :
  (forall path raw m rd st ls w,
      meta_type m = TSK_FS_META_TYPE_DIR ->
      ~ pruning_rule path (to_text raw) ->
      visit path (Entry raw (Some m) rd st ls) w = w) /\
  (forall d start_path q,
      In q (opened (fst (find_consolehost_files d start_path start_walk))) ->
      q = start_path \/
      exists dir name, q = full_path_of dir name /\ pruning_rule dir name) /\
  (forall d start_path r,
      In r (results (fst (find_consolehost_files d start_path start_walk))) ->
      components_in (r_path r)) /\
  (let w := fst (find_consolehost_files stray_fs (txt "/") start_walk) in
   map r_path (results w) =
     [txt "/Users/bob/AppData/Roaming/Microsoft/Windows/PowerShell/PSReadLine/ConsoleHost_history.txt"] /\
   ~ In (txt "/Temp") (opened w)) /\
  map r_path
      (results (fst (find_consolehost_files lookalike_fs (txt "/") start_walk))) =
    [txt "/psreadline-powershell-windows-microsoft-roaming-appdata/ConsoleHost_history.txt"].
Proof.
  split; [|split; [|split; [|split]]].
  - intros path raw m rd st ls w Hm Hn. apply visit_skip; [assumption|].
    destruct (descend_if _ _ || descend_elif _) eqn:Hd; [|reflexivity].
    exfalso. apply Hn, descend_pruning_rule. exact Hd.
  - intros d p q. apply find_opened.
  - intros d p r H. apply (find_sound _ _ _ H).
  - vm_compute. split; [reflexivity|].
    intros H. repeat (destruct H as [H|H]; [discriminate|]). exact H.
  - vm_compute. reflexivity.
Qed.

(** C5. Decoding tries utf-8, utf-8-sig, cp949, euc-kr, latin-1 in this
    order and yields the text and the name of the first encoding that
    decodes the bytes without error.  latin-1, the last one, accepts every
    byte sequence, so for every byte input the decoding succeeds, and
    every artifact that the extraction loop appends carries an encoding. *)
Theorem C5_first_successful_encoding :
  forall data : bytes,
    map encoding_name encodings =
      ["utf-8"; "utf-8-sig"; "cp949"; "euc-kr"; "latin-1"]%string /\
    (forall content enc,
        try_encodings encodings data = Some (content, enc) ->
        decode enc data = Some content /\
        exists before after,
          encodings = before ++ enc :: after /\
          Forall (fun e => decode e data = None) before) /\
    decode latin_1 data = Some (latin1_decode data) /\
    (exists content enc, try_encodings encodings data = Some (content, enc)) /\
    (forall out_dir i r st,
        exists st',
          process_match out_dir i r st = inl st' /\
          forall a, In a (extracted st') ->
                    In a (extracted st) \/ encoding_used a <> None).
Proof.
  intros data.
  split; [reflexivity|].
  split; [intros content enc; apply try_encodings_first|].
  split; [reflexivity|].
  split; [apply try_encodings_total|].
  intros out_dir i r st.
  destruct (process_match_effect out_dir i r st) as [cv E].
  eexists. split; [exact E|].
  cbn [extracted]. intros a Ha.
  apply in_app_or in Ha as [Ha|Ha]; [left; assumption|right].
  unfold artifact_of in Ha.
  destruct (extract_file_content (r_entry r)) as [[|b d]|];
    try (destruct Ha; fail).
  destruct (try_encodings encodings (b :: d)) as [[t enc]|];
    try (destruct Ha; fail).
  destruct Ha as [<-|[]]. discriminate.
Qed.

(** C6. The user name derived from a matched path is the segment that
    follows the first segment whose lower-cased form is [users]; when no
    segment is [users], or when that segment is the last one, the user
    name is [unknown].  For
    [/Users/alice/AppData/.../ConsoleHost_history.txt] it is [alice]. *)
Theorem C6_username_from_path :
  forall file_path : text,
    let segments := split 47 file_path in
    let other := fun p => lower p <> txt "users" in
    (forall pre u nxt post,
        segments = pre ++ u :: nxt :: post ->
        Forall other pre -> lower u = txt "users" ->
        get_username_from_path file_path = nxt) /\
    (Forall other segments ->
     get_username_from_path file_path = txt "unknown") /\
    (forall pre u,
        segments = pre ++ [u] -> Forall other pre ->
        get_username_from_path file_path = txt "unknown") /\
    txt "/" = [47%N] /\
    get_username_from_path
      (txt "/Users/alice/AppData/.../ConsoleHost_history.txt") = txt "alice" /\
    get_username_from_path
      (txt "/Users/alice/AppData/Roaming/Microsoft/Windows/PowerShell/PSReadLine/ConsoleHost_history.txt")
    = txt "alice" /\
    get_username_from_path
      (txt "/Windows/Temp/ConsoleHost_history.txt") = txt "unknown".
Proof.
  intros file_path segments other. unfold get_username_from_path.
  fold segments.
  split; [|split; [|split]].
  - intros pre u nxt post E Hpre Hu. rewrite E.
    exact (username_loop_next [] u nxt post Hpre Hu).
  - intros H. apply username_loop_none. exact H.
  - intros pre u E Hpre. rewrite E.
    exact (username_loop_last [] u Hpre).
  - vm_compute. repeat split.
Qed.

(** C7. An error while probing the image for a volume system is swallowed
    and handled like an empty partition list: the run then opens one
    filesystem on the whole image, at offset 0.  Only in this case is a
    failure to open the filesystem fatal, and then the run returns the
    failure dictionary (no exception leaves it); with partitions the run
    always returns a success dictionary. *)
Theorem C7_probe_failure_and_fatal_open :
  forall h img_path out_dir wanted img,
    host_ready h img_path img ->
    ((exists msg, Volume_Info img = Raises msg) \/ Volume_Info img = Returns [] ->
     gather img wanted = scan_whole_image img /\
     (forall e,
         FS_Info img 0 = Raises e ->
         extract_from_image h img_path out_dir wanted =
         (Failure (txt "Could not process filesystem: " ++ e), [Mkdir out_dir])) /\
     (forall fs,
         FS_Info img 0 = Returns fs -> search_completes fs = true ->
         extract_from_image h img_path out_dir wanted =
         success_of img_path out_dir
           (results (fst (find_consolehost_files fs (txt "/") start_walk))))) /\
    (forall p ps,
        Volume_Info img = Returns (p :: ps) ->
        extract_from_image h img_path out_dir wanted =
        success_of img_path out_dir
          (scan_partitions img wanted 0 (p :: ps) [])).
Proof.
  intros h img_path out_dir wanted img Hh. split.
  - intros Hv.
    assert (G : gather img wanted = scan_whole_image img).
    { unfold gather, probe. destruct Hv as [[msg ->] | ->]; reflexivity. }
    split; [exact G|]. split.
    + intros e He. apply (run_fails out_dir wanted Hh).
      rewrite G. unfold scan_whole_image. rewrite He. reflexivity.
    + intros fs Hfs Hc. apply (run_returns out_dir wanted Hh).
      rewrite G. unfold scan_whole_image, find_consolehost_files. rewrite Hfs.
      unfold search_completes in Hc.
      destruct (fst fs); [reflexivity | reflexivity | discriminate].
  - intros p ps Hv. apply (run_returns out_dir wanted Hh).
    unfold gather, probe. rewrite Hv. reflexivity.
Qed.

(** C8 (amended). Recoverable errors are caught where they occur and
    remove only the affected item.  A partition whose filesystem cannot be
    opened adds nothing and the other partitions are searched.  A
    directory that cannot be opened adds nothing and its siblings are
    visited; when the start directory cannot be opened the search returns
    without matches.  When the iterator of a directory below the start
    raises, the entries delivered before count as they would have, and
    the siblings are visited.  A matched file whose read raises has no
    content and the loop goes on with the next match.  In all these cases
    the run returns a success dictionary.  When the iterator of a
    filesystem's root directory raises, the exception leaves the search:
    the partition adds nothing, and without partitions the run returns the
    failure dictionary. *)
Theorem C8_failure_isolation :
  (forall img wanted pre p post e,
      Volume_Info img = Returns (pre ++ p :: post) ->
      FS_Info img (start p * 512)%N = Raises e ->
      gather img wanted =
      Returns (scan_partitions img wanted 0 pre [] ++
               scan_partitions img wanted (S (List.length pre)) post [])) /\
  (forall path raw m rd ls pre post w,
      meta_type m = TSK_FS_META_TYPE_DIR ->
      results (scan path (pre ++ Entry raw (Some m) rd OpenRaises ls :: post) w) =
      results (scan path (pre ++ post) w)) /\
  (forall ls path w,
      find_consolehost_files (OpenRaises, ls) path w = (log_open path w, None)) /\
  (forall path raw m rd ls msg pre post w,
      meta_type m = TSK_FS_META_TYPE_DIR ->
      results (scan path (pre ++ Entry raw (Some m) rd (IterRaises msg) ls :: post) w) =
      results (scan path (pre ++ Entry raw (Some m) rd Opens ls :: post) w)) /\
  (forall out_dir i pre r post st,
      extract_file_content (r_entry r) = None ->
      exists st1,
        extract_all out_dir i pre st = inl st1 /\
        extract_all out_dir i (pre ++ r :: post) st =
        extract_all out_dir (S (i + List.length pre)) post st1) /\
  (forall raw m e st ls,
      extract_file_content (Entry raw m (Raises e) st ls) = None) /\
  (forall h img_path out_dir wanted img,
      host_ready h img_path img ->
      (exists p ps, Volume_Info img = Returns (p :: ps)) \/
      (exists fs, FS_Info img 0 = Returns fs /\ search_completes fs = true) ->
      exists all_results,
        gather img wanted = Returns all_results /\
        extract_from_image h img_path out_dir wanted =
        success_of img_path out_dir all_results) /\
  (forall img wanted part_num p fs,
      FS_Info img (start p * 512)%N = Returns fs ->
      search_completes fs = false ->
      partition_matches img wanted part_num p = []) /\
  (forall h img_path out_dir wanted img fs msg,
      host_ready h img_path img ->
      (exists e, Volume_Info img = Raises e) \/ Volume_Info img = Returns [] ->
      FS_Info img 0 = Returns fs -> fst fs = IterRaises msg ->
      extract_from_image h img_path out_dir wanted =
      (Failure (txt "Could not process filesystem: " ++ msg), [Mkdir out_dir])).
Proof.
  split; [|split; [|split; [|split; [|split; [|split; [|split; [|split]]]]]]].
  - intros img wanted pre p post e Hv He. unfold gather, probe. rewrite Hv.
    assert (P : partition_matches img wanted (List.length pre) p = []).
    { unfold partition_matches. rewrite He.
      destruct (negb _); [reflexivity|]. destruct wanted as [z|];
        [destruct (negb _)|]; reflexivity. }
    assert (S : scan_partitions img wanted 0 (pre ++ p :: post) [] =
                scan_partitions img wanted 0 pre [] ++
                scan_partitions img wanted (S (List.length pre)) post []).
    { rewrite scan_partitions_app, scan_partitions_cons. cbn [Nat.add].
      rewrite P. reflexivity. }
    rewrite <- S. destruct pre; reflexivity.
  - intros path raw m rd ls pre post w Hm.
    rewrite !scan_app, scan_cons, !scan_results, visit_results.
    assert (M : matches_of path (Entry raw (Some m) rd OpenRaises ls) = []).
    { unfold matches_of. cbn [visit]. rewrite Hm.
      destruct (mem _ _); [reflexivity|].
      destruct (descend_if _ _); [reflexivity|].
      destruct (descend_elif _); reflexivity. }
    rewrite M, app_nil_r, !scan_results. reflexivity.
  - reflexivity.
  - intros path raw m rd ls msg pre post w Hm.
    rewrite !scan_app, !scan_cons, !scan_results, !visit_results,
      !scan_results.
    f_equal. f_equal. unfold matches_of. cbn [visit].
    rewrite Hm, !each_is_scan. reflexivity.
  - intros out_dir i pre r post st Hc.
    destruct (extract_all_effect out_dir pre i st) as [cv E].
    eexists. split; [exact E|].
    rewrite extract_all_app, E. cbn [extract_all].
    unfold process_match. rewrite Hc. reflexivity.
  - intros raw [m|] e st ls; reflexivity.
  - intros h img_path out_dir wanted img Hh Hcase.
    assert (G : exists all_results, gather img wanted = Returns all_results).
    { unfold gather, probe.
      destruct Hcase as [[p [ps ->]] | [fs [Hfs Hc]]]; [eauto|].
      assert (W : exists all_results, scan_whole_image img = Returns all_results).
      { unfold scan_whole_image, find_consolehost_files. rewrite Hfs.
        unfold search_completes in Hc. destruct (fst fs); eauto; discriminate. }
      destruct (Volume_Info img) as [[|p ps]|]; eauto. }
    destruct G as [all_results G]. exists all_results. split; [exact G|].
    apply (run_returns out_dir wanted Hh G).
  - intros img wanted k p fs Hfs Hc. unfold partition_matches. rewrite Hfs.
    unfold find_consolehost_files. unfold search_completes in Hc.
    destruct (fst fs); try discriminate.
    destruct (negb _); [reflexivity|]. destruct wanted as [z|];
      [destruct (negb _)|]; reflexivity.
  - intros h img_path out_dir wanted img fs msg Hh Hv Hfs Hst.
    apply (run_fails out_dir wanted Hh).
    unfold gather, probe.
    assert (W : scan_whole_image img = Raises msg).
    { unfold scan_whole_image, find_consolehost_files. rewrite Hfs, Hst.
      reflexivity. }
    destruct Hv as [[e ->] | ->]; exact W.
Qed.

Lemma searched_within_opened (img : image) (wanted : option Z) :
  list_sum (map located (searched_filesystems img wanted)) <=
  list_sum (map located (opened_filesystems img wanted)).
Proof.
  assert (A : forall offset,
             list_sum (map located (searched_at img offset)) <=
             list_sum (map located (opened_at img offset))).
  { intros offset. unfold searched_at, opened_at.
    destruct (FS_Info img offset) as [fs|e]; [|apply Nat.le_refl].
    destruct (search_completes fs); [apply Nat.le_refl|].
    apply Nat.le_0_l. }
  assert (P : forall parts k,
             list_sum (map located (searched_partitions img wanted k parts)) <=
             list_sum (map located (opened_partitions img wanted k parts))).
  { induction parts as [|p parts IH]; intros k; [apply Nat.le_refl|].
    cbn [searched_partitions opened_partitions].
    rewrite !map_app, !list_sum_app. specialize (IH (S k)).
    destruct (selected wanted k p); [|simpl; exact IH].
    specialize (A (start p * 512)%N). lia. }
  unfold searched_filesystems, opened_filesystems.
  destruct (Volume_Info img) as [[|p ps]|e]; [apply A | apply P | apply A].
Qed.

(** C9 (amended). In every success dictionary, [files_found] is the
    number of matches located in the filesystems whose search ran to its
    end; the matches located in a filesystem whose search an exception
    ended are not counted, so [files_found] is at most the number of
    matches located in all the filesystems that were searched.
    [files_extracted] is the length of [extracted_files], and
    [files_extracted <= files_found]. *)
Theorem C9_counts :
  forall h img_path out_dir wanted s evs,
    extract_from_image h img_path out_dir wanted = (Success s, evs) ->
    (exists img,
        open_image h img_path = Returns img /\
        files_found s =
        list_sum (map located (searched_filesystems img wanted)) /\
        files_found s <=
        list_sum (map located (opened_filesystems img wanted))) /\
    files_extracted s = List.length (extracted_files s) /\
    files_extracted s <= files_found s.
Proof.
  intros h img_path out_dir wanted s evs H.
  apply run_success_inv in H as (img & all_results & Hh & Hg & E).
  unfold success_of in E. injection E as -> _.
  cbn [files_found files_extracted extracted_files].
  split; [|split].
  - exists img. split; [apply Hh|].
    rewrite (gather_located _ _ Hg).
    split; [reflexivity | apply searched_within_opened].
  - reflexivity.
  - apply artifacts_from_length.
Qed.

(** C10. A matched file whose content is read as the empty byte string is
    handled like one whose read raises: the loop turn changes nothing (no
    file is written, no record is appended), and in the result the match
    counts in [files_found] and not in [files_extracted].  For the image
    whose only history file has zero bytes the run reports
    [files_found = 1], [files_extracted = 0] and writes no file. *)
Theorem C10_empty_content_is_skipped :
  forall raw m st ls,
    let zero_bytes := Entry raw (Some m) (Returns []) st ls in
    extract_file_content zero_bytes = Some [] /\
    (forall e, extract_file_content (Entry raw (Some m) (Raises e) st ls) = None) /\
    (forall out_dir i r st0,
        extract_file_content (r_entry r) = Some [] \/
        extract_file_content (r_entry r) = None ->
        process_match out_dir i r st0 = inl st0) /\
    (forall h img_path out_dir wanted img pre r post,
        host_ready h img_path img ->
        gather img wanted = Returns (pre ++ r :: post) ->
        r_entry r = zero_bytes ->
        exists s evs,
          extract_from_image h img_path out_dir wanted = (Success s, evs) /\
          files_found s = List.length pre + 1 + List.length post /\
          extracted_files s =
            artifacts_from out_dir 0 pre ++
            artifacts_from out_dir (S (List.length pre)) post /\
          evs = Mkdir out_dir ::
                writes_from out_dir 0 pre ++
                writes_from out_dir (S (List.length pre)) post /\
          files_extracted s < files_found s) /\
    extract_from_image (a_host (Returns (bare_image (Returns empty_history_fs))))
      (txt "disk.dd") (txt "out") None =
    (Success {| image_path := txt "disk.dd"; output_dir := txt "out";
                files_found := 1; files_extracted := 0;
                extracted_files := [] |},
     [Mkdir (txt "out")]).
Proof.
  intros raw m st ls zero_bytes.
  split; [reflexivity|]. split; [reflexivity|]. split; [|split].
  - intros out_dir i r st0 [Hc|Hc]; unfold process_match; rewrite Hc; reflexivity.
  - intros h img_path out_dir wanted img pre r post Hh Hg Hr.
    rewrite (run_returns out_dir wanted Hh Hg). unfold success_of.
    assert (A : artifact_of out_dir (List.length pre) r = []).
    { unfold artifact_of. rewrite Hr. reflexivity. }
    assert (W : write_of out_dir (List.length pre) r = []).
    { unfold write_of. rewrite Hr. reflexivity. }
    eexists. eexists. split; [reflexivity|].
    cbn [files_found files_extracted extracted_files].
    rewrite artifacts_from_app, writes_from_app. cbn [artifacts_from writes_from Nat.add].
    rewrite A, W. cbn [app].
    split; [rewrite length_app; simpl; lia|].
    split; [reflexivity|]. split; [reflexivity|].
    rewrite !length_app.
    pose proof (artifacts_from_length out_dir pre 0).
    pose proof (artifacts_from_length out_dir post (S (List.length pre))).
    simpl. lia.
  - vm_compute. reflexivity.
Qed.

(** C1 (amended). For every match whose content is successfully extracted
    (read, and not empty) the raw bytes are written to the file
    [ConsoleHost_history_<username>_<sequence>.txt] in [output_dir], where
    <sequence> is the 1-based position of the match among all matches
    found, in discovery order; the artifact of the match names that file,
    and no other file is written. *)
Theorem C1_output_file_per_match :
  forall h img_path out_dir wanted s evs img all_results,
    extract_from_image h img_path out_dir wanted = (Success s, evs) ->
    open_image h img_path = Returns img ->
    gather img wanted = Returns all_results ->
    (forall k r data,
        nth_error all_results k = Some r ->
        extract_file_content (r_entry r) = Some data -> data <> [] ->
        let name := txt "ConsoleHost_history_"
                    ++ get_username_from_path (r_path r)
                    ++ txt "_" ++ decimal (k + 1) ++ txt ".txt" in
        In (WriteFile out_dir name data) evs /\
        exists a,
          In a (extracted_files s) /\
          source_path a = r_path r /\
          username a = get_username_from_path (r_path r) /\
          output_path a = {| op_dir := out_dir; op_name := name |}) /\
    (forall dir name data,
        In (WriteFile dir name data) evs ->
        dir = out_dir /\ data <> [] /\
        exists k r,
          nth_error all_results k = Some r /\
          extract_file_content (r_entry r) = Some data /\
          name = txt "ConsoleHost_history_"
                 ++ get_username_from_path (r_path r)
                 ++ txt "_" ++ decimal (k + 1) ++ txt ".txt").
Proof.
  intros h img_path out_dir wanted s evs img all_results H Hi Hg.
  apply run_success_inv in H as (img' & all' & Hh & Hg' & E).
  assert (img' = img) by (destruct Hh as (_ & _ & _ & Hh); congruence).
  subst img'. assert (all' = all_results) by congruence. subst all'.
  unfold success_of in E. injection E as -> ->.
  cbn [extracted_files]. split.
  - intros k r [|b data] Hk Hc Hne; [congruence|]. split.
    + right. exact (writes_from_nth out_dir all_results 0 k Hk Hc).
    + exact (artifacts_from_nth out_dir all_results 0 k Hk Hc).
  - intros dir name data [Hin|Hin]; [discriminate|].
    apply writes_from_inv in Hin. exact Hin.
Qed.

(** ** Further properties: lines and white space *)

Lemma splitlines_from_break (cur : text) (c : N) (r : text) :
  is_linebreak c = true -> (c =? 13)%N = false ->
  splitlines_from cur (c :: r) = rev cur :: splitlines_from [] r.
Proof.
  intros Hb Hc. cbn [splitlines_from]. rewrite Hb, Hc.
  destruct r; reflexivity.
Qed.

Lemma splitlines_from_plain (cur : text) (c : N) (r : text) :
  is_linebreak c = false ->
  splitlines_from cur (c :: r) = splitlines_from (c :: cur) r.
Proof. intros Hb. cbn [splitlines_from]. rewrite Hb. reflexivity. Qed.

Lemma universal_newlines_splitlines_from (n : nat) :
  forall s cur,
    List.length s <= n ->
    splitlines_from cur (universal_newlines s) = splitlines_from cur s.
Proof.
  induction n as [|n IH]; intros s cur Hn.
  - destruct s; [reflexivity | simpl in Hn; lia].
  - destruct s as [|c r]; [reflexivity|].
    simpl in Hn. cbn [universal_newlines].
    destruct (N.eqb_spec c 13) as [->|Hc].
    + rewrite splitlines_from_break by reflexivity.
      cbn [splitlines_from]. change (is_linebreak 13) with true. cbv iota.
      destruct r as [|d r']; [reflexivity|].
      simpl in Hn. rewrite N.eqb_refl. cbn [andb].
      destruct (d =? 10)%N; f_equal; apply IH; simpl; lia.
    + apply N.eqb_neq in Hc.
      destruct (is_linebreak c) eqn:Hb.
      * rewrite !splitlines_from_break by assumption.
        f_equal. apply IH. lia.
      * rewrite !splitlines_from_plain by assumption. apply IH. lia.
Qed.

Lemma universal_newlines_splitlines (s : text) :
  splitlines (universal_newlines s) = splitlines s.
Proof.
  apply universal_newlines_splitlines_from with (n := List.length s).
  apply Nat.le_refl.
Qed.

Lemma try_open_try_encodings (encs : list encoding) (raw : bytes) :
  try_open encs raw =
  option_map (fun ce => (universal_newlines (fst ce), snd ce))
             (try_encodings encs raw).
Proof.
  induction encs as [|enc encs IH]; [reflexivity|].
  cbn [try_open try_encodings]. unfold read_as.
  destruct (decode enc raw); [reflexivity | exact IH].
Qed.

Lemma collect_lines_commands (lines : list text) :
  forall k,
    map (fun l => {| line_number := hl_line_number l;
                     command_text := hl_command l |})
        (collect_lines k lines) = number_lines k lines.
Proof.
  induction lines as [|l lines IH]; intros k; [reflexivity|].
  cbn [collect_lines number_lines]. destruct (strip l); [apply IH|].
  cbn [map]. rewrite IH. reflexivity.
Qed.

Lemma collect_lines_In (lines : list text) :
  forall k n c raw,
    In {| hl_line_number := n; hl_command := c; hl_raw_line := raw |}
       (collect_lines k lines) <->
    k <= n /\ nth_error lines (n - k) = Some raw /\ c = strip raw /\ c <> [].
Proof.
  induction lines as [|l lines IH]; intros k n c raw.
  - simpl. split; [intros [] | intros [_ [H _]]].
    destruct (n - k); discriminate.
  - assert (T : In {| hl_line_number := n; hl_command := c; hl_raw_line := raw |}
                   (collect_lines (S k) lines) <->
                 k < n /\ nth_error lines (n - S k) = Some raw /\
                 c = strip raw /\ c <> [])
      by (rewrite IH; reflexivity).
    split.
    + intros H.
      assert (H' : (n = k /\ raw = l /\ c = strip l /\ c <> []) \/
                   In {| hl_line_number := n; hl_command := c; hl_raw_line := raw |}
                      (collect_lines (S k) lines)).
      { cbn [collect_lines] in H. destruct (strip l) as [|x xs] eqn:Hs.
        - right; exact H.
        - destruct H as [H|H]; [left | right; exact H].
          inversion H; subst. repeat split; congruence. }
      destruct H' as [(-> & -> & -> & Hne) | H'].
      * split; [lia|]. rewrite Nat.sub_diag. auto.
      * apply T in H' as (Hlt & Hnth & Hc). split; [lia|].
        replace (n - k) with (S (n - S k)) by lia. auto.
    + intros (Hle & Hnth & Hc & Hne).
      destruct (Nat.eq_dec n k) as [->|Hnk].
      * rewrite Nat.sub_diag in Hnth. inversion Hnth; subst raw.
        cbn [collect_lines]. destruct (strip l) as [|x xs] eqn:Hs.
        -- congruence.
        -- left. rewrite Hc. reflexivity.
      * replace (n - k) with (S (n - S k)) in Hnth by lia.
        assert (H' : In {| hl_line_number := n; hl_command := c; hl_raw_line := raw |}
                        (collect_lines (S k) lines)).
        { apply T. split; [lia|]. auto. }
        cbn [collect_lines]. destruct (strip l); [exact H' | right; exact H'].
Qed.

Lemma collect_lines_increasing (lines : list text) :
  forall k, StronglySorted lt (map hl_line_number (collect_lines k lines)).
Proof.
  intros k.
  assert (E : map hl_line_number (collect_lines k lines) =
              map line_number (number_lines k lines)).
  { rewrite <- collect_lines_commands, map_map. reflexivity. }
  rewrite E. apply number_lines_increasing.
Qed.

Lemma try_open_total (raw : bytes) :
  exists content enc,
    try_encodings encodings raw = Some (content, enc) /\
    try_open encodings raw = Some (universal_newlines content, enc).
Proof.
  destruct (try_encodings_total raw) as [content [enc E]].
  exists content, enc. split; [exact E|].
  rewrite try_open_try_encodings, E. reflexivity.
Qed.

(** ** Further properties: the file tools *)

(** X1. On a file that can be opened, [parse_consolehost_history] returns
    the same numbered commands as the image extraction computes from the
    same bytes: the translation of line ends by the text-mode read does
    not change the lines. *)
Theorem X1_file_parse_agrees_with_image_parse :
  forall open_file file_path raw,
    open_file file_path = Returns raw ->
    exists content enc recs,
      try_encodings encodings raw = Some (content, enc) /\
      parse_consolehost_history open_file file_path = Returns recs /\
      map (fun l => {| line_number := hl_line_number l;
                       command_text := hl_command l |}) recs =
      parse_commands content.
Proof.
  intros open_file file_path raw Ho.
  destruct (try_open_total raw) as (content & enc & E & Eo).
  exists content, enc. eexists. split; [exact E|].
  unfold parse_consolehost_history. rewrite Ho, Eo. split; [reflexivity|].
  rewrite collect_lines_commands, universal_newlines_splitlines.
  symmetry. apply parse_commands_lines.
Qed.

(** X2. Every record of [parse_consolehost_history] carries a line of the
    decoded text under its 1-based number, with [command] the stripped
    [raw_line] and not empty; every line that is not blank has its record,
    and the records come with strictly increasing line numbers. *)
Theorem X2_parse_records :
  forall open_file file_path raw content enc recs,
    open_file file_path = Returns raw ->
    try_encodings encodings raw = Some (content, enc) ->
    parse_consolehost_history open_file file_path = Returns recs ->
    (forall n c line,
        In {| hl_line_number := n; hl_command := c; hl_raw_line := line |} recs <->
        1 <= n /\ nth_error (splitlines content) (n - 1) = Some line /\
        c = strip line /\ c <> []) /\
    StronglySorted lt (map hl_line_number recs).
Proof.
  intros open_file file_path raw content enc recs Ho E Hp.
  unfold parse_consolehost_history in Hp.
  rewrite Ho, try_open_try_encodings, E in Hp. cbn in Hp.
  injection Hp as <-. rewrite universal_newlines_splitlines.
  split; [intros n c line; apply collect_lines_In
         | apply collect_lines_increasing].
Qed.


Lemma command_entries_count (ie iln : bool) (lines : list text) :
  forall k,
    List.length (filter (fun c => negb (is_blank (ce_command c)))
                        (command_entries ie iln k lines)) =
    List.length (filter (fun line => negb (is_blank (strip line))) lines).
Proof.
  induction lines as [|l lines IH]; intros k; [reflexivity|].
  cbn [command_entries filter].
  destruct (strip l) as [|x xs].
  - destruct ie; simpl; apply IH.
  - simpl. rewrite IH. reflexivity.
Qed.

Lemma command_entries_all_lines (iln : bool) (lines : list text) :
  forall k,
    map ce_command (command_entries true iln k lines) = map strip lines /\
    map ce_line_number (command_entries true iln k lines) =
    map (fun n => if iln then Some n else None) (seq k (List.length lines)).
Proof.
  induction lines as [|l lines IH]; intros k; [split; reflexivity|].
  cbn [command_entries negb]. rewrite andb_false_r.
  cbn [map List.length seq ce_command ce_line_number].
  destruct (IH (S k)) as [-> ->].
  split; [|reflexivity]. f_equal. destruct (strip l); reflexivity.
Qed.

Lemma command_entries_texts (ie iln : bool) (lines : list text) :
  forall k,
    map ce_command (command_entries ie iln k lines) =
    map ce_command (command_entries ie false k lines) /\
    Forall (fun c => ce_line_number c <> None <-> iln = true)
           (command_entries ie iln k lines).
Proof.
  induction lines as [|l lines IH]; intros k; [split; [reflexivity|constructor]|].
  cbn [command_entries]. destruct (IH (S k)) as [E F].
  destruct (is_blank (strip l) && negb ie); [split; assumption|].
  cbn [map ce_command]. rewrite E. split; [reflexivity|].
  constructor; [|exact F]. cbn [ce_line_number].
  destruct iln; split; congruence.
Qed.

Lemma command_entries_default (lines : list text) :
  forall k,
    command_entries false true k lines =
    map (fun l => {| ce_command := hl_command l;
                     ce_line_number := Some (hl_line_number l) |})
        (collect_lines k lines).
Proof.
  induction lines as [|l lines IH]; intros k; [reflexivity|].
  cbn [command_entries collect_lines].
  destruct (strip l) as [|x xs]; cbn [is_blank negb andb]; [apply IH|].
  cbn [map hl_command hl_line_number]. rewrite IH. reflexivity.
Qed.

Lemma filter_length_le (A : Type) (f : A -> bool) (l : list A) :
  List.length (filter f l) <= List.length l.
Proof.
  induction l as [|x l IH]; [apply Nat.le_refl|].
  simpl. destruct (f x); simpl; lia.
Qed.

(** The summary that [extract_consolehost_history] returns for the decoded
    text [content]. *)
Lemma extract_history_returns (h : file_host) (input_path : text)
      (ie iln : bool) raw content enc st_size absolute :
  fh_exists h input_path = Returns true ->
  fh_is_file h input_path = Returns true ->
  fh_open h input_path = Returns raw ->
  try_encodings encodings raw = Some (content, enc) ->
  fh_stat_size h input_path = Returns st_size ->
  fh_absolute h input_path = Returns absolute ->
  extract_consolehost_history h input_path ie iln =
  HistorySuccess
    {| h_file_path := absolute;
       h_file_size_bytes := st_size;
       h_total_lines := List.length (splitlines content);
       h_command_count :=
         List.length (filter (fun line => negb (is_blank (strip line)))
                             (splitlines content));
       h_encoding := Some enc;
       h_commands := command_entries ie iln 1 (splitlines content) |}.
Proof.
  intros H1 H2 H3 H4 H5 H6. unfold extract_consolehost_history, read_history.
  rewrite H1, H2, H3, try_open_try_encodings, H4, H5, H6. cbn.
  rewrite universal_newlines_splitlines, command_entries_count. reflexivity.
Qed.

Lemma extract_history_success_inv (h : file_host) (input_path : text)
      (ie iln : bool) (s : history_summary) :
  extract_consolehost_history h input_path ie iln = HistorySuccess s ->
  exists raw content enc st_size absolute,
    fh_exists h input_path = Returns true /\
    fh_is_file h input_path = Returns true /\
    fh_open h input_path = Returns raw /\
    try_encodings encodings raw = Some (content, enc) /\
    fh_stat_size h input_path = Returns st_size /\
    fh_absolute h input_path = Returns absolute.
Proof.
  unfold extract_consolehost_history, read_history.
  destruct (fh_exists h input_path) as [[|]|]; try discriminate.
  destruct (fh_is_file h input_path) as [[|]|]; try discriminate.
  destruct (fh_open h input_path) as [raw|e]; [|discriminate].
  destruct (try_encodings_total raw) as (content & enc & E).
  destruct (try_open encodings raw) as [[c e]|]; [|discriminate].
  destruct (fh_stat_size h input_path) as [sz|e']; [|discriminate].
  destruct (fh_absolute h input_path) as [ap|e']; [|discriminate].
  intros _. exists raw, content, enc, sz, ap. auto 10.
Qed.

(** X4. In a successful result of [extract_consolehost_history] the
    values of [command_count], [total_lines], [encoding], the path and
    the size do not depend on the two flags: whatever the flags, the call
    succeeds with the same values, and [command_count <= total_lines]. *)
Theorem X4_flags_do_not_change_the_counts :
  forall h input_path ie1 iln1 ie2 iln2 s1,
    extract_consolehost_history h input_path ie1 iln1 = HistorySuccess s1 ->
    exists s2,
      extract_consolehost_history h input_path ie2 iln2 = HistorySuccess s2 /\
      h_command_count s2 = h_command_count s1 /\
      h_total_lines s2 = h_total_lines s1 /\
      h_encoding s2 = h_encoding s1 /\
      h_file_path s2 = h_file_path s1 /\
      h_file_size_bytes s2 = h_file_size_bytes s1 /\
      h_command_count s1 <= h_total_lines s1.
Proof.
  intros h p ie1 iln1 ie2 iln2 s1 H.
  destruct (extract_history_success_inv _ _ _ _ H)
    as (raw & content & enc & sz & ap & H1 & H2 & H3 & H4 & H5 & H6).
  rewrite (extract_history_returns h p ie1 iln1 H1 H2 H3 H4 H5 H6) in H.
  injection H as <-.
  eexists. split; [apply (extract_history_returns h p ie2 iln2 H1 H2 H3 H4 H5 H6)|].
  cbn. repeat split. apply filter_length_le.
Qed.

(** X5. With [include_empty_lines] every line of the file has its entry,
    in order: there are [total_lines] entries and, with
    [include_line_numbers], they are numbered 1, 2, ..., [total_lines].
    Without [include_empty_lines] there are [command_count] entries and
    none has an empty command. *)
Theorem X5_entries_per_line :
  forall h input_path iln s,
    (extract_consolehost_history h input_path true iln = HistorySuccess s ->
     List.length (h_commands s) = h_total_lines s /\
     map ce_line_number (h_commands s) =
       map (fun n => if iln then Some n else None)
           (seq 1 (h_total_lines s))) /\
    (extract_consolehost_history h input_path false iln = HistorySuccess s ->
     List.length (h_commands s) = h_command_count s /\
     Forall (fun c => ce_command c <> []) (h_commands s)).
Proof.
  intros h p iln s. split; intros H;
    destruct (extract_history_success_inv _ _ _ _ H)
      as (raw & content & enc & sz & ap & H1 & H2 & H3 & H4 & H5 & H6);
    rewrite (extract_history_returns h p _ iln H1 H2 H3 H4 H5 H6) in H;
    injection H as <-; cbn [h_commands h_total_lines h_command_count].
  - destruct (command_entries_all_lines iln (splitlines content) 1) as [E1 E2].
    split; [|exact E2].
    rewrite <- (length_map ce_command), E1, length_map. reflexivity.
  - generalize 1. induction (splitlines content) as [|l lines IH]; intros k.
    + split; [reflexivity|constructor].
    + destruct (IH (S k)) as [IH1 IH2].
      cbn [command_entries filter].
      destruct (strip l) as [|x xs] eqn:Hs; cbn [is_blank negb andb].
      * split; assumption.
      * cbn [List.length]. rewrite IH1. split; [reflexivity|].
        constructor; [discriminate | exact IH2].
Qed.

(** X6. With its default flags [extract_consolehost_history] reports the
    records of [parse_consolehost_history] on the same file, without
    [raw_line]; [command_count] is their number. *)
Theorem X6_default_flags_agree_with_parse :
  forall h input_path s,
    extract_consolehost_history h input_path false true = HistorySuccess s ->
    exists recs,
      parse_consolehost_history (fh_open h) input_path = Returns recs /\
      h_commands s =
        map (fun l => {| ce_command := hl_command l;
                         ce_line_number := Some (hl_line_number l) |}) recs /\
      h_command_count s = List.length recs.
Proof.
  intros h p s H.
  destruct (extract_history_success_inv _ _ _ _ H)
    as (raw & content & enc & sz & ap & H1 & H2 & H3 & H4 & H5 & H6).
  rewrite (extract_history_returns h p false true H1 H2 H3 H4 H5 H6) in H.
  injection H as <-. cbn [h_commands h_command_count].
  exists (collect_lines 1 (splitlines content)).
  split; [|split].
  - unfold parse_consolehost_history.
    rewrite H3, try_open_try_encodings, H4. cbn.
    rewrite universal_newlines_splitlines. reflexivity.
  - apply command_entries_default.
  - rewrite <- (length_map
                  (fun l => {| line_number := hl_line_number l;
                               command_text := hl_command l |})),
      collect_lines_commands, number_lines_length.
    f_equal. apply filter_ext. intros l. destruct (strip l); reflexivity.
Qed.

(** X7. [include_line_numbers] decides only whether the entries carry a
    line number: with it every entry has one, without it none has, and
    the commands are the same texts in the same order. *)
Theorem X7_line_numbers_flag :
  forall h input_path ie iln s s',
    extract_consolehost_history h input_path ie iln = HistorySuccess s ->
    extract_consolehost_history h input_path ie false = HistorySuccess s' ->
    map ce_command (h_commands s) = map ce_command (h_commands s') /\
    Forall (fun c => ce_line_number c <> None <-> iln = true) (h_commands s) /\
    Forall (fun c => ce_line_number c = None) (h_commands s').
Proof.
  intros h p ie iln s s' H H'.
  destruct (extract_history_success_inv _ _ _ _ H)
    as (raw & content & enc & sz & ap & H1 & H2 & H3 & H4 & H5 & H6).
  rewrite (extract_history_returns h p ie iln H1 H2 H3 H4 H5 H6) in H.
  rewrite (extract_history_returns h p ie false H1 H2 H3 H4 H5 H6) in H'.
  injection H as <-. injection H' as <-. cbn [h_commands].
  destruct (command_entries_texts ie iln (splitlines content) 1) as [E F].
  destruct (command_entries_texts ie false (splitlines content) 1) as [_ F'].
  split; [exact E|]. split; [exact F|].
  eapply Forall_impl; [|exact F']. intros c. cbv beta.
  destruct (ce_line_number c); intros Hc; [|reflexivity].
  exfalso. assert (false = true) by (apply Hc; discriminate). discriminate.
Qed.

(** X8. [extract_consolehost_history] succeeds exactly when [exists()]
    and [is_file()] return true and the file can be opened, stat'ed and
    its absolute path taken; the result then carries that path, the size
    and an encoding.  A path that does not exist and a path that is no
    file give their own messages, and an error of [open], [stat] or
    [absolute], raised inside the [try], is returned as the message.  An
    exception of [exists()] or [is_file()], which come before the [try],
    leaves the call, and no other exception does. *)
Theorem X8_history_success_condition :
  forall h input_path ie iln,
    let run := extract_consolehost_history h input_path ie iln in
    ((exists s, run = HistorySuccess s) <->
     fh_exists h input_path = Returns true /\
     fh_is_file h input_path = Returns true /\
     (exists raw, fh_open h input_path = Returns raw) /\
     (exists st_size, fh_stat_size h input_path = Returns st_size) /\
     (exists absolute, fh_absolute h input_path = Returns absolute)) /\
    (forall s,
        run = HistorySuccess s ->
        fh_absolute h input_path = Returns (h_file_path s) /\
        fh_stat_size h input_path = Returns (h_file_size_bytes s) /\
        h_encoding s <> None) /\
    (fh_exists h input_path = Returns false ->
     run = HistoryFailure (txt "File not found: " ++ input_path)) /\
    (fh_exists h input_path = Returns true ->
     fh_is_file h input_path = Returns false ->
     run = HistoryFailure (txt "Path is not a file: " ++ input_path)) /\
    (forall e,
        fh_exists h input_path = Returns true ->
        fh_is_file h input_path = Returns true ->
        fh_open h input_path = Raises e \/
        ((exists raw, fh_open h input_path = Returns raw) /\
         (fh_stat_size h input_path = Raises e \/
          ((exists st_size, fh_stat_size h input_path = Returns st_size) /\
           fh_absolute h input_path = Raises e))) ->
        run = HistoryFailure e) /\
    (forall e,
        run = HistoryRaises e <->
        fh_exists h input_path = Raises e \/
        (fh_exists h input_path = Returns true /\
         fh_is_file h input_path = Raises e)).
Proof.
  intros h p ie iln run. subst run.
  split; [|split; [|split; [|split; [|split]]]].
  - split.
    + intros [s H].
      destruct (extract_history_success_inv _ _ _ _ H)
        as (raw & content & enc & sz & ap & H1 & H2 & H3 & H4 & H5 & H6).
      eauto 10.
    + intros (H1 & H2 & [raw H3] & [sz H5] & [ap H6]).
      destruct (try_encodings_total raw) as (content & enc & H4).
      eexists. apply (extract_history_returns h p ie iln H1 H2 H3 H4 H5 H6).
  - intros s H.
    destruct (extract_history_success_inv _ _ _ _ H)
      as (raw & content & enc & sz & ap & H1 & H2 & H3 & H4 & H5 & H6).
    rewrite (extract_history_returns h p ie iln H1 H2 H3 H4 H5 H6) in H.
    injection H as <-. cbn.
    split; [exact H6|]. split; [exact H5|discriminate].
  - intros H. unfold extract_consolehost_history. rewrite H. reflexivity.
  - intros H1 H2. unfold extract_consolehost_history. rewrite H1, H2.
    reflexivity.
  - intros e H1 H2 H. unfold extract_consolehost_history, read_history.
    rewrite H1, H2.
    destruct H as [H3 | [[raw H3] H]]; rewrite H3; [reflexivity|].
    destruct (try_open_total raw) as (content & enc & _ & ->).
    destruct H as [H5 | [[sz H5] H6]]; rewrite H5; [reflexivity|].
    rewrite H6. reflexivity.
  - intros e. unfold extract_consolehost_history, read_history.
    destruct (fh_exists h p) as [[|]|e1].
    + destruct (fh_is_file h p) as [[|]|e2].
      * destruct (fh_open h p) as [raw|e3].
        -- destruct (try_open_total raw) as (content & enc & _ & ->).
           destruct (fh_stat_size h p) as [sz|e4];
             [destruct (fh_absolute h p) as [ap|e5]|];
             (split; [discriminate | intros [K | [_ K]]; discriminate]).
        -- split; [discriminate | intros [K | [_ K]]; discriminate].
      * split; [discriminate | intros [K | [_ K]]; discriminate].
      * split.
        -- intros K. injection K as ->. right. split; reflexivity.
        -- intros [K | [_ K]]; [discriminate|]. injection K as ->. reflexivity.
    + split; [discriminate | intros [K | [K _]]; discriminate].
    + split.
      * intros K. injection K as ->. left. reflexivity.
      * intros [K | [K _]]; [|discriminate]. injection K as ->. reflexivity.
Qed.

(** ** Further properties: decoding *)

Lemma utf8_decode_bom (r : bytes) :
  utf8_decode (xef :: xbb :: xbf :: r) =
  option_map (cons 65279%N) (utf8_decode r).
Proof. reflexivity. Qed.

Lemma byte_of_code (b : byte) (n : N) (b' : byte) :
  Byte.of_N n = Some b' -> (Byte.to_N b =? n)%N = true -> b = b'.
Proof.
  intros Hn Hb. apply N.eqb_eq in Hb. rewrite <- Hb, Byte.of_to_N in Hn.
  congruence.
Qed.

Lemma utf8_sig_fails_with_utf8 (data : bytes) :
  utf8_decode data = None -> utf8_sig_decode data = None.
Proof.
  intros H. unfold utf8_sig_decode.
  destruct data as [|b0 [|b1 [|b2 r]]]; try exact H.
  destruct (Byte.to_N b0 =? 239)%N eqn:E0; [|exact H].
  destruct (Byte.to_N b1 =? 187)%N eqn:E1; [|exact H].
  destruct (Byte.to_N b2 =? 191)%N eqn:E2; [|exact H].
  cbn [andb].
  apply (byte_of_code b0 239 (b' := xef) eq_refl) in E0.
  apply (byte_of_code b1 187 (b' := xbb) eq_refl) in E1.
  apply (byte_of_code b2 191 (b' := xbf) eq_refl) in E2.
  subst. rewrite utf8_decode_bom in H.
  destruct (utf8_decode r); [discriminate | reflexivity].
Qed.

Lemma utf8_decode_ascii (data : bytes) :
  Forall (fun b => (Byte.to_N b < 128)%N) data ->
  utf8_decode data = Some (latin1_decode data).
Proof.
  induction 1 as [|b data Hb _ IH]; [reflexivity|].
  cbn [utf8_decode]. apply N.ltb_lt in Hb. rewrite Hb, IH. reflexivity.
Qed.

(** X9. [utf-8-sig] is never the encoding that the decoding reports: it
    is tried after [utf-8] and fails whenever [utf-8] does.  A file that
    starts with the UTF-8 byte-order mark is decoded as [utf-8], and the
    mark stays in the text as its first code point, U+FEFF. *)
Theorem X9_utf8_sig_is_never_reported :
  forall data : bytes,
    (forall content enc,
        try_encodings encodings data = Some (content, enc) ->
        enc <> utf_8_sig) /\
    (forall content enc,
        try_open encodings data = Some (content, enc) ->
        enc <> utf_8_sig) /\
    (forall t,
        utf8_decode data = Some t ->
        try_encodings encodings ([xef; xbb; xbf] ++ data) =
        Some (65279%N :: t, utf_8)).
Proof.
  intros data.
  assert (A : forall content enc,
             try_encodings encodings data = Some (content, enc) ->
             enc <> utf_8_sig).
  { intros content enc. unfold encodings. cbn [try_encodings decode].
    destruct (utf8_decode data) eqn:E8.
    - intros H; inversion H; discriminate.
    - rewrite (utf8_sig_fails_with_utf8 data E8).
      destruct (cp949_decode data); [intros H; inversion H; discriminate|].
      destruct (euc_kr_decode data); intros H; inversion H; discriminate. }
  split; [exact A|]. split.
  - intros content enc. rewrite try_open_try_encodings.
    destruct (try_encodings encodings data) as [[c e]|]; [|discriminate].
    cbn. intros H; inversion H; subst. exact (A c enc eq_refl).
  - intros t Ht. unfold encodings. cbn [try_encodings decode app].
    rewrite utf8_decode_bom, Ht. reflexivity.
Qed.

(** X10. The reported encoding is [utf-8] exactly when the bytes are
    valid UTF-8, and the text is then their UTF-8 decoding; bytes below
    128 decode to themselves.  When [latin-1] is reported the bytes are
    not valid UTF-8 and the text has one code point per byte, equal to
    the byte. *)
Theorem X10_reported_encoding :
  forall data : bytes,
    (forall content,
        try_encodings encodings data = Some (content, utf_8) <->
        utf8_decode data = Some content) /\
    (Forall (fun b => (Byte.to_N b < 128)%N) data ->
     try_encodings encodings data = Some (map Byte.to_N data, utf_8)) /\
    (forall content,
        try_encodings encodings data = Some (content, latin_1) ->
        utf8_decode data = None /\
        content = map Byte.to_N data /\
        List.length content = List.length data).
Proof.
  intros data. unfold encodings. cbn [try_encodings decode].
  split; [|split].
  - intros content. destruct (utf8_decode data) eqn:E8.
    + split; intros H; inversion H; reflexivity.
    + rewrite (utf8_sig_fails_with_utf8 data E8).
      destruct (cp949_decode data); [split; discriminate|].
      destruct (euc_kr_decode data); split; discriminate.
  - intros H. rewrite (utf8_decode_ascii H). reflexivity.
  - intros content. destruct (utf8_decode data) eqn:E8; [discriminate|].
    rewrite (utf8_sig_fails_with_utf8 data E8).
    destruct (cp949_decode data); [discriminate|].
    destruct (euc_kr_decode data); [discriminate|].
    intros H; inversion H. split; [reflexivity|]. split; [reflexivity|].
    apply length_map.
Qed.

(** ** Further properties: commands, user names, file names *)

Lemma lstrip_decompose (s : text) :
  exists pre,
    s = pre ++ lstrip s /\ Forall (fun c => is_space c = true) pre.
Proof.
  induction s as [|c s [pre [E F]]].
  - exists []. split; [reflexivity | constructor].
  - cbn [lstrip]. destruct (is_space c) eqn:Hc.
    + exists (c :: pre). split; [simpl; f_equal; exact E|].
      constructor; assumption.
    + exists []. split; [reflexivity | constructor].
Qed.

Lemma lstrip_head (s : text) :
  lstrip s <> [] -> is_space (hd 0%N (lstrip s)) = false.
Proof.
  induction s as [|c s IH]; [intros H; contradiction H; reflexivity|].
  cbn [lstrip]. destruct (is_space c) eqn:Hc; [exact IH|].
  intros _. exact Hc.
Qed.

Lemma hd_rev (d : N) (l : text) : hd d (rev l) = last l d.
Proof.
  induction l as [|x l IH] using rev_ind; [reflexivity|].
  rewrite rev_app_distr, last_last. reflexivity.
Qed.

Lemma last_app_nonempty (d : N) (a b : text) :
  b <> [] -> last (a ++ b) d = last b d.
Proof.
  intros Hb. destruct b as [|x b] using rev_ind; [contradiction Hb; reflexivity|].
  rewrite app_assoc, !last_last. reflexivity.
Qed.

(** [strip] removes white space at both ends and nothing else. *)
Lemma strip_decompose (s : text) :
  exists pre post,
    s = pre ++ strip s ++ post /\
    Forall (fun c => is_space c = true) pre /\
    Forall (fun c => is_space c = true) post.
Proof.
  unfold strip.
  destruct (lstrip_decompose s) as [pre [E F]].
  destruct (lstrip_decompose (rev (lstrip s))) as [post' [E' F']].
  exists pre, (rev post'). split; [|split].
  - rewrite <- rev_app_distr, <- E', rev_involutive. exact E.
  - exact F.
  - apply Forall_rev. exact F'.
Qed.

Lemma strip_ends (s : text) :
  strip s <> [] ->
  is_space (hd 0%N (strip s)) = false /\ is_space (last (strip s) 0%N) = false.
Proof.
  unfold strip. intros Hne.
  set (t := lstrip s) in *. set (u := lstrip (rev t)) in *.
  assert (Hu : u <> []).
  { intros E. apply Hne. rewrite E. reflexivity. }
  split.
  - rewrite hd_rev.
    destruct (lstrip_decompose (rev t)) as [pre [E _]]. fold u in E.
    assert (Ht : t <> []).
    { intros Et. rewrite Et in E. simpl in E.
      destruct pre; [simpl in E; congruence | discriminate]. }
    rewrite <- (last_app_nonempty 0%N pre Hu), <- E, <- hd_rev, rev_involutive.
    apply lstrip_head. exact Ht.
  - rewrite <- hd_rev, rev_involutive. apply lstrip_head. exact Hu.
Qed.

Lemma splitlines_from_no_breaks (n : nat) :
  forall s cur,
    List.length s <= n ->
    Forall (fun c => is_linebreak c = false) cur ->
    Forall (Forall (fun c => is_linebreak c = false)) (splitlines_from cur s).
Proof.
  induction n as [|n IH]; intros s cur Hn Hcur.
  - destruct s; [|simpl in Hn; lia]. simpl.
    destruct cur; [constructor|]. constructor; [|constructor].
    apply Forall_rev. exact Hcur.
  - destruct s as [|c r].
    + simpl. destruct cur; [constructor|]. constructor; [|constructor].
      apply Forall_rev. exact Hcur.
    + simpl in Hn. cbn [splitlines_from].
      destruct (is_linebreak c) eqn:Hb.
      * constructor; [apply Forall_rev; exact Hcur|].
        destruct r as [|d r']; [constructor|]. simpl in Hn.
        destruct ((c =? 13)%N && (d =? 10)%N);
          apply IH; simpl; try lia; constructor.
      * apply IH; [lia|]. constructor; assumption.
Qed.

Lemma Forall_middle (A : Type) (P : A -> Prop) (a b c : list A) :
  Forall P (a ++ b ++ c) -> Forall P b.
Proof.
  intros H. apply Forall_app in H as [_ H]. apply Forall_app in H as [H _].
  exact H.
Qed.

(** X11. Every command that the extraction reports is a trimmed single
    line: it is not empty, it neither starts nor ends with white space,
    it contains no line boundary, and the line it comes from is the
    command with white space around it. *)
Theorem X11_commands_are_trimmed_lines :
  forall content c,
    In c (parse_commands content) ->
    let t := command_text c in
    t <> [] /\
    is_space (hd 0%N t) = false /\
    is_space (last t 0%N) = false /\
    Forall (fun ch => is_linebreak ch = false) t /\
    exists pre post,
      nth_error (splitlines content) (line_number c - 1) = Some (pre ++ t ++ post) /\
      Forall (fun ch => is_space ch = true) pre /\
      Forall (fun ch => is_space ch = true) post.
Proof.
  intros content [n t] Hin. cbn [command_text line_number].
  rewrite parse_commands_lines in Hin.
  apply number_lines_In in Hin as (Hn & line & Hnth & -> & Hne).
  destruct (strip_ends line Hne) as [Hh Hl].
  destruct (strip_decompose line) as (pre & post & E & Fpre & Fpost).
  split; [exact Hne|]. split; [exact Hh|]. split; [exact Hl|]. split.
  - assert (L : Forall (fun ch => is_linebreak ch = false) line).
    { assert (A := @splitlines_from_no_breaks (List.length content) content []
                     (Nat.le_refl _) (Forall_nil _)).
      rewrite Forall_forall in A. apply A.
      apply (nth_error_In _ _ Hnth). }
    rewrite E in L. exact (Forall_middle _ _ _ L).
  - exists pre, post. rewrite <- E. auto.
Qed.

Lemma split_segments (sep : N) (s : text) :
  split sep s <> [] /\ Forall (fun seg => ~ In sep seg) (split sep s).
Proof.
  induction s as [|c s [Hne IH]].
  - split; [discriminate|]. constructor; [intros []|constructor].
  - cbn [split]. destruct (N.eqb_spec c sep) as [->|Hc].
    + split; [discriminate|]. constructor; [intros []|exact IH].
    + destruct (split sep s) as [|l ls]; [contradiction Hne; reflexivity|].
      split; [discriminate|]. inversion IH; subst.
      constructor; [|assumption]. intros [H|H]; [congruence|auto].
Qed.

Lemma username_loop_source (path_parts rest : list text) :
  forall i,
    username_loop path_parts i rest = txt "unknown" \/
    In (username_loop path_parts i rest) path_parts.
Proof.
  induction rest as [|p rest IH]; intros i; [left; reflexivity|].
  cbn [username_loop].
  destruct (text_eqb (lower p) (txt "users")); cbn [andb]; [|apply IH].
  destruct (i + 1 <? List.length path_parts) eqn:Hi; [|apply IH].
  right. apply nth_In. apply Nat.ltb_lt. exact Hi.
Qed.

(** X12. The derived user name is [unknown] or one of the segments of the
    path, and never contains a slash. *)
Theorem X12_username_is_a_segment :
  forall file_path,
    (get_username_from_path file_path = txt "unknown" \/
     In (get_username_from_path file_path) (split 47 file_path)) /\
    ~ In 47%N (get_username_from_path file_path).
Proof.
  intros file_path. unfold get_username_from_path.
  destruct (username_loop_source (split 47 file_path) (split 47 file_path) 0)
    as [H|H].
  - split; [left; exact H|]. rewrite H. vm_compute.
    intros K. repeat (destruct K as [K|K]; [discriminate|]). exact K.
  - split; [right; exact H|].
    destruct (split_segments 47 file_path) as [_ F].
    rewrite Forall_forall in F. exact (F _ H).
Qed.

Lemma txt_inj (a b : string) : txt a = txt b -> a = b.
Proof.
  unfold txt. intros H.
  assert (I : forall x y : bytes, map Byte.to_N x = map Byte.to_N y -> x = y).
  { induction x as [|p x IH]; intros [|q y] E; try discriminate; [reflexivity|].
    inversion E as [[E1 E2]]. f_equal; [|apply IH; exact E2].
    assert (S : Some p = Some q)
      by (rewrite <- (Byte.of_to_N p), <- (Byte.of_to_N q), E1; reflexivity).
    congruence. }
  apply I in H.
  rewrite <- (string_of_list_byte_of_string a),
          <- (string_of_list_byte_of_string b), H.
  reflexivity.
Qed.

Lemma decimal_inj (n m : nat) : decimal n = decimal m -> n = m.
Proof.
  unfold decimal. intros H. apply txt_inj in H.
  pose (pad := fun d => match d with Decimal.Nil => Decimal.D0 Decimal.Nil | _ => d end).
  assert (P : forall d, NilZero.string_of_uint d = NilEmpty.string_of_uint (pad d))
    by (intros d; destruct d; reflexivity).
  assert (V : forall d, Nat.of_uint (pad d) = Nat.of_uint d)
    by (intros d; destruct d; reflexivity).
  rewrite !P in H.
  apply (f_equal NilEmpty.uint_of_string) in H.
  rewrite !NilEmpty.usu in H. injection H as H.
  apply (f_equal Nat.of_uint) in H.
  rewrite !V, !DecimalNat.Unsigned.of_to in H. exact H.
Qed.

Lemma digits_of_uint (d : Decimal.uint) :
  Forall (fun c => (48 <= c <= 57)%N) (txt (NilEmpty.string_of_uint d)).
Proof.
  induction d; cbn; constructor; try exact IHd; lia.
Qed.

Lemma decimal_digits (n : nat) : Forall (fun c => (48 <= c <= 57)%N) (decimal n).
Proof.
  unfold decimal, NilZero.string_of_uint.
  destruct (Nat.to_uint n) eqn:E; try (rewrite <- E; apply digits_of_uint).
  cbn. constructor; [lia | constructor].
Qed.

Lemma first_mark_unique (x : N) (a1 a2 b1 b2 : text) :
  ~ In x a1 -> ~ In x a2 ->
  a1 ++ x :: b1 = a2 ++ x :: b2 -> a1 = a2 /\ b1 = b2.
Proof.
  revert a2. induction a1 as [|y a1 IH]; intros [|z a2] H1 H2 E.
  - inversion E. auto.
  - inversion E; subst. exfalso. apply H2. left; reflexivity.
  - inversion E; subst. exfalso. apply H1. left; reflexivity.
  - inversion E; subst.
    destruct (IH a2) as [-> ->]; auto; intros K; [apply H1|apply H2]; right; exact K.
Qed.

Lemma output_filename_inj (u1 u2 : text) (i j : nat) :
  output_filename u1 i = output_filename u2 j -> u1 = u2 /\ i = j.
Proof.
  unfold output_filename. intros E.
  apply app_inv_head in E.
  change (txt "_") with [95%N] in E.
  rewrite !app_assoc in E. apply app_inv_tail in E.
  apply (f_equal (@rev N)) in E. rewrite !rev_app_distr in E.
  cbn [rev app] in E.
  assert (D : forall n, ~ In 95%N (rev (decimal n))).
  { intros n K. apply in_rev in K.
    pose proof (decimal_digits n) as F. rewrite Forall_forall in F.
    specialize (F _ K). lia. }
  apply first_mark_unique in E as [Ed Eu]; try apply D.
  split.
  - rewrite <- (rev_involutive u1), Eu, rev_involutive. reflexivity.
  - assert (decimal (i + 1) = decimal (j + 1))
      by (rewrite <- (rev_involutive (decimal (i + 1))), Ed, rev_involutive;
          reflexivity).
    apply decimal_inj in H. lia.
Qed.

Lemma written_names_from (out_dir : text) (rs : list found) :
  forall i name,
    In name (written_names (writes_from out_dir i rs)) ->
    exists u k, name = output_filename u k /\ i <= k.
Proof.
  induction rs as [|r rs IH]; intros i name; [intros []|].
  cbn [writes_from]. unfold written_names. rewrite flat_map_app, in_app_iff.
  intros [H|H].
  - unfold write_of in H.
    destruct (extract_file_content (r_entry r)) as [[|b d]|];
      try (destruct H; fail).
    destruct H as [<-|[]]. eauto.
  - apply IH in H as (u & k & E & L). exists u, k. split; [exact E | lia].
Qed.

Lemma written_names_nodup (out_dir : text) (rs : list found) :
  forall i, NoDup (written_names (writes_from out_dir i rs)).
Proof.
  induction rs as [|r rs IH]; intros i; [constructor|].
  cbn [writes_from]. unfold written_names. rewrite flat_map_app.
  fold (written_names (writes_from out_dir (S i) rs)).
  unfold write_of.
  destruct (extract_file_content (r_entry r)) as [[|b d]|];
    try (apply IH).
  cbn [flat_map app]. constructor; [|apply IH].
  intros K. apply written_names_from in K as (u & k & E & L).
  apply output_filename_inj in E as [_ E]. lia.
Qed.

Lemma artifacts_match_writes (out_dir : text) (rs : list found) :
  forall i,
    map (fun a => op_name (output_path a)) (artifacts_from out_dir i rs) =
    written_names (writes_from out_dir i rs) /\
    map source_path (artifacts_from out_dir i rs) =
    map r_path (filter extractable rs) /\
    map username (artifacts_from out_dir i rs) =
    map (fun r => get_username_from_path (r_path r)) (filter extractable rs) /\
    map file_size (artifacts_from out_dir i rs) =
    map r_size (filter extractable rs).
Proof.
  induction rs as [|r rs IH]; intros i; [repeat split|].
  destruct (IH (S i)) as (E1 & E2 & E3 & E4).
  cbn [artifacts_from writes_from filter]. unfold written_names.
  rewrite !map_app, flat_map_app.
  fold (written_names (writes_from out_dir (S i) rs)).
  rewrite E1, E2, E3, E4.
  unfold artifact_of, write_of, extractable.
  destruct (extract_file_content (r_entry r)) as [[|b d]|];
    try (repeat split; fail).
  destruct (try_encodings_total (b :: d)) as (content & enc & ->).
  repeat split.
Qed.

(** X13. The name of an output file determines the user name and the
    position it was built from, so two matches of one run are never
    written to the same file: the names of the files that a run writes
    are pairwise distinct. *)
Theorem X13_output_files_do_not_collide :
  (forall u1 u2 i j,
      output_filename u1 i = output_filename u2 j -> u1 = u2 /\ i = j) /\
  (forall h img_path out_dir wanted s evs,
      extract_from_image h img_path out_dir wanted = (Success s, evs) ->
      NoDup (written_names evs)).
Proof.
  split; [apply output_filename_inj|].
  intros h img_path out_dir wanted s evs H.
  apply run_success_inv in H as (img & all_results & _ & _ & E).
  unfold success_of in E. injection E as _ ->.
  cbn [written_names flat_map app]. apply written_names_nodup.
Qed.

(** X14. In a successful run the artifacts and the files written
    correspond one to one, in order: after the creation of the output
    directory the effects are the writes of the files that the artifacts
    name, so [files_extracted] is the number of files written. *)
Theorem X14_artifacts_match_written_files :
  forall h img_path out_dir wanted s evs,
    extract_from_image h img_path out_dir wanted = (Success s, evs) ->
    hd_error evs = Some (Mkdir out_dir) /\
    map (fun a => op_name (output_path a)) (extracted_files s) =
      written_names evs /\
    Forall (fun a => op_dir (output_path a) = out_dir) (extracted_files s) /\
    files_extracted s = List.length (written_names evs).
Proof.
  intros h img_path out_dir wanted s evs H.
  apply run_success_inv in H as (img & all_results & _ & _ & E).
  unfold success_of in E. injection E as -> ->.
  cbn [extracted_files files_extracted hd_error written_names flat_map app].
  destruct (artifacts_match_writes out_dir all_results 0) as (E1 & _).
  split; [reflexivity|]. split; [exact E1|]. split.
  - clear E1. generalize 0.
    induction all_results as [|r rs IH]; intros i; [constructor|].
    cbn [artifacts_from]. apply Forall_app. split; [|apply IH].
    unfold artifact_of.
    destruct (extract_file_content (r_entry r)) as [[|b d]|];
      [constructor | | constructor].
    destruct (try_encodings encodings (b :: d)) as [[c e]|]; [|constructor].
    constructor; [reflexivity | constructor].
  - fold (written_names (writes_from out_dir 0 all_results)).
    rewrite <- E1, length_map. reflexivity.
Qed.

(** X15. The artifacts are the matches whose content was read and is
    not empty, in discovery order, each with the path, the user name and
    the size of its match. *)
Theorem X15_artifacts_in_discovery_order :
  forall h img_path out_dir wanted s evs img all_results,
    extract_from_image h img_path out_dir wanted = (Success s, evs) ->
    open_image h img_path = Returns img ->
    gather img wanted = Returns all_results ->
    map source_path (extracted_files s) =
      map r_path (filter extractable all_results) /\
    map username (extracted_files s) =
      map (fun r => get_username_from_path (r_path r))
          (filter extractable all_results) /\
    map file_size (extracted_files s) =
      map r_size (filter extractable all_results) /\
    files_found s - files_extracted s =
      List.length (filter (fun r => negb (extractable r)) all_results).
Proof.
  intros h img_path out_dir wanted s evs img all_results H Hi Hg.
  apply run_success_inv in H as (img' & all' & Hh & Hg' & E).
  assert (img' = img) by (destruct Hh as (_ & _ & _ & Hh); congruence).
  subst img'. assert (all' = all_results) by congruence. subst all'.
  unfold success_of in E. injection E as -> _.
  cbn [extracted_files files_found files_extracted].
  destruct (artifacts_match_writes out_dir all_results 0) as (_ & E2 & E3 & E4).
  split; [exact E2|]. split; [exact E3|]. split; [exact E4|].
  rewrite <- (length_map source_path), E2, length_map.
  clear. induction all_results as [|r rs IH]; [reflexivity|].
  cbn [filter List.length]. pose proof (filter_length_le extractable rs).
  destruct (extractable r); cbn [negb List.length]; lia.
Qed.

(** ** Further properties: the search and the partitions *)

(** One step of the search, read backwards: a match of an entry is the
    entry itself, or a match of one of the entries listed below it. *)
Lemma matches_of_step (path : text) (e : entry) (r : found) :
  In r (matches_of path e) ->
  exists raw m rd st ls,
    e = Entry raw (Some m) rd st ls /\
    ((meta_type m = TSK_FS_META_TYPE_REG /\
      r = {| r_path := full_path_of path (to_text raw);
             r_size := meta_size m; r_entry := e;
             r_partition := None; r_partition_num := None |}) \/
     (meta_type m = TSK_FS_META_TYPE_DIR /\
      exists c, In c ls /\
                In r (matches_of (full_path_of path (to_text raw)) c))).
Proof.
  destruct e as [|raw m rd st ls]; [intros []|].
  unfold matches_of at 1. cbn [visit].
  destruct (mem (to_text raw) _); [intros []|].
  destruct m as [m|]; [|intros []].
  intros H. exists raw, m, rd, st, ls. split; [reflexivity|].
  destruct (meta_type m).
  - left. split; [reflexivity|].
    destruct (text_eqb _ _); [|destruct H].
    destruct (all_parts_in _); [|destruct H].
    destruct H as [<-|[]]. reflexivity.
  - right. split; [reflexivity|]. rewrite !each_is_scan in H.
    assert (R : In r (results
                (match st with
                 | OpenRaises => log_open (full_path_of path (to_text raw)) start_walk
                 | _ => scan (full_path_of path (to_text raw)) ls
                          (log_open (full_path_of path (to_text raw)) start_walk)
                 end)) ->
              exists c, In c ls /\ In r (matches_of (full_path_of path (to_text raw)) c)).
    { destruct st; try (intros []); rewrite scan_results; simpl;
        rewrite in_flat_map; trivial. }
    destruct (descend_if _ _); [|destruct (descend_elif _)];
      try (destruct H; fail); exact (R H).
  - destruct H.
Qed.

Lemma full_path_extends (path name : text) :
  exists rest, full_path_of path name = path ++ rest.
Proof.
  unfold full_path_of. destruct (text_eqb path (txt "/")) eqn:E; cbn [negb].
  - apply text_eqb_eq in E. subst. exists name. reflexivity.
  - exists (txt "/" ++ name). reflexivity.
Qed.

Lemma matches_of_below (e : entry) :
  forall path r,
    In r (matches_of path e) ->
    (exists rest, r_path r = path ++ rest) /\
    r_partition r = None /\ r_partition_num r = None.
Proof.
  induction e as [|raw m rd st ls IH] using entry_induction; intros path r H.
  - destruct H.
  - apply matches_of_step in H as (raw' & m' & rd' & st' & ls' & E & H).
    inversion E; subst raw' m rd' st' ls'. clear E.
    destruct H as [[_ ->] | [_ (c & Hc & H)]].
    + cbn. split; [apply full_path_extends | split; reflexivity].
    + rewrite Forall_forall in IH.
      destruct (IH c Hc _ _ H) as ([rest E] & P1 & P2).
      split; [|split; assumption].
      destruct (full_path_extends path (to_text raw)) as [rest' E'].
      exists (rest' ++ rest). rewrite E, E', app_assoc. reflexivity.
Qed.

Lemma find_below (d : directory) (path : text) (r : found) :
  In r (results (fst (find_consolehost_files d path start_walk))) ->
  (exists rest, r_path r = path ++ rest) /\
  r_partition r = None /\ r_partition_num r = None.
Proof.
  rewrite find_results. simpl.
  destruct (fst d); try (intros []);
    rewrite in_flat_map; intros [c [_ H]]; exact (matches_of_below c _ _ H).
Qed.

(** X19. The search only appends to the list it is given: the results
    passed in stay in front, and what is appended, like the exception
    that may leave the call, does not depend on them. *)
Theorem X19_search_only_appends :
  forall d path w,
    results (fst (find_consolehost_files d path w)) =
      results w ++ results (fst (find_consolehost_files d path start_walk)) /\
    snd (find_consolehost_files d path w) =
      snd (find_consolehost_files d path start_walk).
Proof.
  intros d path w. split.
  - rewrite !find_results. reflexivity.
  - unfold find_consolehost_files. destruct (fst d); reflexivity.
Qed.

(** X20. Every match lies below the directory where the search started
    (its path extends the start path, so with the start [/] it begins
    with a slash), and the search itself leaves the partition keys
    unset. *)
Theorem X20_matches_lie_below_the_start :
  forall d path r,
    In r (results (fst (find_consolehost_files d path start_walk))) ->
    (exists rest, r_path r = path ++ rest) /\
    r_partition r = None /\ r_partition_num r = None.
Proof.
  intros d path r. rewrite find_results. simpl.
  destruct (fst d); try (intros []);
    rewrite in_flat_map; intros [c [_ H]]; exact (matches_of_below c _ _ H).
Qed.

Lemma partition_matches_tagged (img : image) (wanted : option Z) (k : nat)
      (p : partition_info) (r : found) :
  In r (partition_matches img wanted k p) ->
  flags p = TSK_VS_PART_FLAG_ALLOC /\
  (forall z, wanted = Some z -> z = Z.of_nat k) /\
  r_partition r = Some (to_text (desc p)) /\
  r_partition_num r = Some k /\
  exists fs, FS_Info img (start p * 512)%N = Returns fs /\
             search_completes fs = true.
Proof.
  unfold partition_matches.
  destruct (N.eqb_spec (flags p) TSK_VS_PART_FLAG_ALLOC) as [Hf|Hf];
    cbn [negb]; [|intros []].
  assert (W : forall z, wanted = Some z ->
                match wanted with
                | Some p0 => negb (Z.of_nat k =? p0)%Z
                | None => false
                end = false -> z = Z.of_nat k).
  { intros z -> H. apply negb_false_iff, Z.eqb_eq in H. auto. }
  destruct (match wanted with
            | Some p0 => negb (Z.of_nat k =? p0)%Z
            | None => false
            end) eqn:Hw; [intros []|].
  destruct (FS_Info img (start p * 512)%N) as [fs|e] eqn:Hfs; [|intros []].
  unfold find_consolehost_files.
  destruct (fst fs) eqn:Hst; cbn [fst]; try (intros []);
    rewrite in_map_iff; intros (r0 & <- & _);
    (split; [exact Hf|]); (split; [intros z Hz; exact (W z Hz eq_refl)|]);
    (split; [reflexivity|]); (split; [reflexivity|]);
    exists fs; (split; [reflexivity|]);
    unfold search_completes; rewrite Hst; reflexivity.
Qed.

Lemma scan_partitions_tagged (img : image) (wanted : option Z)
      (parts : list partition_info) :
  forall k r,
    In r (scan_partitions img wanted k parts []) ->
    exists j p,
      nth_error parts j = Some p /\
      In r (partition_matches img wanted (k + j) p).
Proof.
  induction parts as [|p parts IH]; intros k r; [intros []|].
  rewrite scan_partitions_cons, in_app_iff. intros [H|H].
  - exists 0, p. rewrite Nat.add_0_r. auto.
  - apply IH in H as (j & q & Hj & H). exists (S j), q.
    rewrite Nat.add_succ_r. auto.
Qed.

Lemma scan_partitions_out_of_range (img : image) (z : Z)
      (parts : list partition_info) :
  forall k,
    (z < Z.of_nat k \/ Z.of_nat (k + List.length parts) <= z)%Z ->
    scan_partitions img (Some z) k parts [] = [].
Proof.
  induction parts as [|p parts IH]; intros k Hz; [reflexivity|].
  rewrite scan_partitions_cons, IH by (simpl in Hz; lia).
  rewrite app_nil_r. unfold partition_matches.
  destruct (negb _); [reflexivity|].
  assert (E : (Z.of_nat k =? z)%Z = false)
    by (apply Z.eqb_neq; simpl in Hz; lia).
  rewrite E. reflexivity.
Qed.

(** X16. A partition filter that names no partition (negative, or not
    below the number of partitions) is no error: on an image with
    partitions the run succeeds with no match, no artifact and no file
    written. *)
Theorem X16_partition_filter_out_of_range :
  forall h img_path out_dir z img p ps,
    host_ready h img_path img ->
    Volume_Info img = Returns (p :: ps) ->
    (z < 0 \/ Z.of_nat (List.length (p :: ps)) <= z)%Z ->
    extract_from_image h img_path out_dir (Some z) =
    (Success {| image_path := img_path; output_dir := out_dir;
                files_found := 0; files_extracted := 0;
                extracted_files := [] |},
     [Mkdir out_dir]).
Proof.
  intros h img_path out_dir z img p ps Hh Hv Hz.
  assert (G : gather img (Some z) = Returns []).
  { unfold gather, probe. rewrite Hv. f_equal.
    apply scan_partitions_out_of_range. simpl in *. lia. }
  rewrite (run_returns out_dir (Some z) Hh G). reflexivity.
Qed.

(** X17. On an image without partitions (the probe raised, or found
    none) the partition filter is ignored: the run gives the same result
    and the same effects as without a filter. *)
Theorem X17_partition_filter_ignored_without_partitions :
  forall h img_path out_dir wanted,
    (forall img, open_image h img_path = Returns img ->
                 (exists e, Volume_Info img = Raises e) \/
                 Volume_Info img = Returns []) ->
    extract_from_image h img_path out_dir wanted =
    extract_from_image h img_path out_dir None.
Proof.
  intros h img_path out_dir wanted Hv. unfold extract_from_image.
  destruct (open_image h img_path) as [img|e]; [|reflexivity].
  assert (G : gather img wanted = gather img None).
  { unfold gather, probe.
    destruct (Hv img eq_refl) as [[e ->] | ->]; reflexivity. }
  rewrite G. reflexivity.
Qed.

Lemma artifacts_from_source (out_dir : text) (rs : list found) :
  forall i a,
    In a (artifacts_from out_dir i rs) ->
    exists r,
      In r rs /\ source_path a = r_path r /\
      partition a = match r_partition r with
                    | Some d => d
                    | None => txt "N/A"
                    end.
Proof.
  induction rs as [|r rs IH]; intros i a; [intros []|].
  cbn [artifacts_from]. rewrite in_app_iff. intros [H|H].
  - unfold artifact_of in H.
    destruct (extract_file_content (r_entry r)) as [[|b d]|];
      try (destruct H; fail).
    destruct (try_encodings encodings (b :: d)) as [[c e]|];
      try (destruct H; fail).
    destruct H as [<-|[]]. exists r. split; [left; reflexivity|]. auto.
  - apply IH in H as (r' & Hr & E). exists r'. split; [right; exact Hr | exact E].
Qed.

(** X18. Every artifact of a run on an image with partitions carries the
    description of an allocated partition that the filter selects and
    whose filesystem was searched to the end; every artifact of a run on
    an image without partitions carries [N/A]. *)
Theorem X18_partition_of_an_artifact :
  forall h img_path out_dir wanted s evs img a,
    extract_from_image h img_path out_dir wanted = (Success s, evs) ->
    open_image h img_path = Returns img ->
    In a (extracted_files s) ->
    (forall p ps,
        Volume_Info img = Returns (p :: ps) ->
        exists k part fs,
          nth_error (p :: ps) k = Some part /\
          flags part = TSK_VS_PART_FLAG_ALLOC /\
          (forall z, wanted = Some z -> z = Z.of_nat k) /\
          FS_Info img (start part * 512)%N = Returns fs /\
          search_completes fs = true /\
          partition a = to_text (desc part)) /\
    ((exists e, Volume_Info img = Raises e) \/ Volume_Info img = Returns [] ->
     partition a = txt "N/A").
Proof.
  intros h img_path out_dir wanted s evs img a H Hi Ha.
  apply run_success_inv in H as (img' & all_results & Hh & Hg & E).
  assert (img' = img) by (destruct Hh as (_ & _ & _ & Hh); congruence).
  subst img'. unfold success_of in E. injection E as -> _.
  cbn [extracted_files] in Ha.
  apply artifacts_from_source in Ha as (r & Hr & _ & Hp).
  split.
  - intros p ps Hv. unfold gather, probe in Hg. rewrite Hv in Hg.
    assert (Hr' : In r (scan_partitions img wanted 0 (p :: ps) []))
      by (injection Hg as <-; exact Hr).
    apply scan_partitions_tagged in Hr' as (j & part & Hj & Hr').
    clear Hr. rename Hr' into Hr.
    apply partition_matches_tagged in Hr as (Hf & Hw & Ht & _ & fs & Hfs & Hc).
    exists j, part, fs. rewrite Hp, Ht. cbn [Nat.add] in Hw. auto 10.
  - intros Hv.
    assert (G : scan_whole_image img = Returns all_results).
    { unfold gather, probe in Hg. destruct Hv as [[e Hv] | Hv];
        rewrite Hv in Hg; exact Hg. }
    unfold scan_whole_image in G.
    destruct (FS_Info img 0) as [fs|e]; [|discriminate].
    destruct (find_consolehost_files fs (txt "/") start_walk) as [w [e|]] eqn:F;
      [discriminate|].
    injection G as <-.
    assert (Hr' : In r (results (fst (find_consolehost_files fs (txt "/") start_walk))))
      by (rewrite F; exact Hr).
    apply find_below in Hr' as (_ & Hn & _). rewrite Hp, Hn. reflexivity.
Qed.

(** X21. A run of [extract_from_image] that returns the failure
    dictionary has written no file.  Either the image was not opened (an
    import failed, the image path does not exist, or opening it raised)
    and nothing was done on the disk; or the image was opened, the output
    directory was created, there were no partitions, and the search of
    the whole image raised, which the message reports. *)
Theorem X21_failed_run_writes_no_file :
  forall h img_path out_dir wanted msg evs,
    extract_from_image h img_path out_dir wanted = (Failure msg, evs) ->
    written_names evs = [] /\
    ((evs = [] /\ ~ exists img, host_ready h img_path img) \/
     (evs = [Mkdir out_dir] /\
      exists img e,
        host_ready h img_path img /\
        (probe img = None \/ probe img = Some []) /\
        scan_whole_image img = Raises e /\
        msg = txt "Could not process filesystem: " ++ e)).
Proof.
  intros h img_path out_dir wanted msg evs H.
  destruct (pytsk3_installed h) eqn:H1;
    [destruct (pyewf_installed h) eqn:H2;
     [destruct (path_exists h img_path) eqn:H3;
      [destruct (open_image h img_path) as [img|e'] eqn:H4|]|]|].
  - assert (Hh : host_ready h img_path img) by (repeat split; assumption).
    destruct (gather img wanted) as [all_results|e] eqn:G.
    + rewrite (run_returns out_dir wanted Hh G) in H. discriminate.
    + rewrite (run_fails out_dir wanted Hh G) in H. injection H as <- <-.
      split; [reflexivity|]. right. split; [reflexivity|].
      exists img, e. split; [exact Hh|].
      unfold gather in G. destruct (probe img) as [[|p ps]|]; try discriminate;
        auto.
  - unfold extract_from_image in H. rewrite H1, H2, H3, H4 in H.
    injection H as <- <-. split; [reflexivity|]. left. split; [reflexivity|].
    intros [img (_ & _ & _ & K)]. congruence.
  - unfold extract_from_image in H. rewrite H1, H2, H3 in H.
    injection H as <- <-. split; [reflexivity|]. left. split; [reflexivity|].
    intros [img (_ & _ & K & _)]. congruence.
  - unfold extract_from_image in H. rewrite H1, H2 in H.
    injection H as <- <-. split; [reflexivity|]. left. split; [reflexivity|].
    intros [img (_ & K & _)]. congruence.
  - unfold extract_from_image in H. rewrite H1 in H.
    injection H as <- <-. split; [reflexivity|]. left. split; [reflexivity|].
    intros [img (K & _)]. congruence.
Qed.

Lemma matches_of_listing (path : text) raw m rd st ls (r : found) :
  meta_type m = TSK_FS_META_TYPE_DIR ->
  st <> OpenRaises ->
  mem (to_text raw) [txt "."; txt ".."] = false ->
  descend_if (to_text raw) (full_path_of path (to_text raw))
    || descend_elif path = true ->
  In r (flat_map (matches_of (full_path_of path (to_text raw))) ls) ->
  In r (matches_of path (Entry raw (Some m) rd st ls)).
Proof.
  intros Hm Hst Hdot Hd Hr. unfold matches_of at 1.
  rewrite visit_recurse by assumption.
  rewrite find_results. cbn [fst snd results start_walk app].
  destruct st; [exact Hr | contradiction Hst; reflexivity | exact Hr].
Qed.

Lemma flat_map_In (A B : Type) (f : A -> list B) (l : list A) (x : A) (y : B) :
  In x l -> In y (f x) -> In y (flat_map f l).
Proof. intros Hx Hy. apply in_flat_map. exists x. auto. Qed.

Lemma lower_ascii (s : text) :
  forallb (fun c => (c <? 128)%N) s = true -> lower s = map ascii_lower s.
Proof. intros H. unfold lower. rewrite H. reflexivity. Qed.

Lemma is_substring_right (p a b : text) :
  contains p b = true -> is_substring p (a ++ b).
Proof.
  intros H. apply contains_substring in H as [x [y ->]].
  exists (a ++ x), y. rewrite <- app_assoc. reflexivity.
Qed.

Lemma all_parts_in_right (a b : text) :
  all_parts_in b = true -> all_parts_in (a ++ b) = true.
Proof.
  unfold all_parts_in. rewrite !forallb_forall. intros H p Hp.
  apply contains_substring, is_substring_right, H, Hp.
Qed.

(** X22. A history file at its default place is found for every user:
    when [/Users/<user>/AppData/Roaming/Microsoft/Windows/PowerShell/PSReadLine]
    can be walked and lists a regular file [ConsoleHost_history.txt], the
    search from the root records it under that path, whatever else the
    directories hold and also when their iterators raise after the
    listing.  The names are what the entries' raw names, delivered as
    bytes or as text, read as; <user> is any ASCII name other than [.]
    and [..]. *)
Theorem X22_default_location_is_found :
  forall (user : text) raw m rd st ls (root : directory),
    forallb (fun c => (c <? 128)%N) user = true ->
    mem user [txt "."; txt ".."] = false ->
    fst root <> OpenRaises ->
    to_text raw = txt "ConsoleHost_history.txt" ->
    meta_type m = TSK_FS_META_TYPE_REG ->
    let leaf := Entry raw (Some m) rd st ls in
    leads_to [txt "Users"; user; txt "AppData"; txt "Roaming";
              txt "Microsoft"; txt "Windows"; txt "PowerShell";
              txt "PSReadLine"] leaf (snd root) ->
    In {| r_path := txt "/Users/" ++ user ++
                    txt "/AppData/Roaming/Microsoft/Windows/PowerShell/PSReadLine/ConsoleHost_history.txt";
          r_size := meta_size m; r_entry := leaf;
          r_partition := None; r_partition_num := None |}
       (results (fst (find_consolehost_files root (txt "/") start_walk))).
Proof.
  intros user raw m rd st ls root Hascii Hdot Hroot Hname Hreg leaf Hchain.
  rewrite find_results. cbn [results start_walk app].
  assert (R : In {| r_path := txt "/Users/" ++ user ++
                    txt "/AppData/Roaming/Microsoft/Windows/PowerShell/PSReadLine/ConsoleHost_history.txt";
                    r_size := meta_size m; r_entry := leaf;
                    r_partition := None; r_partition_num := None |}
                 (flat_map (matches_of (txt "/")) (snd root)));
    [|destruct (fst root); [exact R | contradiction Hroot; reflexivity | exact R]].
  cbn [leads_to] in Hchain.
  destruct Hchain as (r1 & m1 & rd1 & st1 & l1 & I1 & N1 & M1 & S1 & Hchain).
  destruct Hchain as (r2 & m2 & rd2 & st2 & l2 & I2 & N2 & M2 & S2 & Hchain).
  destruct Hchain as (r3 & m3 & rd3 & st3 & l3 & I3 & N3 & M3 & S3 & Hchain).
  destruct Hchain as (r4 & m4 & rd4 & st4 & l4 & I4 & N4 & M4 & S4 & Hchain).
  destruct Hchain as (r5 & m5 & rd5 & st5 & l5 & I5 & N5 & M5 & S5 & Hchain).
  destruct Hchain as (r6 & m6 & rd6 & st6 & l6 & I6 & N6 & M6 & S6 & Hchain).
  destruct Hchain as (r7 & m7 & rd7 & st7 & l7 & I7 & N7 & M7 & S7 & Hchain).
  destruct Hchain as (r8 & m8 & rd8 & st8 & l8 & I8 & N8 & M8 & S8 & Hleaf).
  eapply flat_map_In; [exact I1|].
  apply matches_of_listing; rewrite ?N1;
    [assumption | assumption | first [assumption | reflexivity]
    | first [reflexivity | apply orb_true_iff; right; reflexivity] |].
  eapply flat_map_In; [exact I2|].
  apply matches_of_listing; rewrite ?N2;
    [assumption | assumption | first [assumption | reflexivity]
    | first [reflexivity | apply orb_true_iff; right; reflexivity] |].
  eapply flat_map_In; [exact I3|].
  apply matches_of_listing; rewrite ?N3;
    [assumption | assumption | first [assumption | reflexivity]
    | first [reflexivity | apply orb_true_iff; right; reflexivity] |].
  eapply flat_map_In; [exact I4|].
  apply matches_of_listing; rewrite ?N4;
    [assumption | assumption | first [assumption | reflexivity]
    | first [reflexivity | apply orb_true_iff; right; reflexivity] |].
  eapply flat_map_In; [exact I5|].
  apply matches_of_listing; rewrite ?N5;
    [assumption | assumption | first [assumption | reflexivity]
    | first [reflexivity | apply orb_true_iff; right; reflexivity] |].
  eapply flat_map_In; [exact I6|].
  apply matches_of_listing; rewrite ?N6;
    [assumption | assumption | first [assumption | reflexivity]
    | first [reflexivity | apply orb_true_iff; right; reflexivity] |].
  eapply flat_map_In; [exact I7|].
  apply matches_of_listing; rewrite ?N7;
    [assumption | assumption | first [assumption | reflexivity]
    | first [reflexivity | apply orb_true_iff; right; reflexivity] |].
  eapply flat_map_In; [exact I8|].
  apply matches_of_listing; rewrite ?N8;
    [assumption | assumption | first [assumption | reflexivity]
    | first [reflexivity | apply orb_true_iff; right; reflexivity] |].
  eapply flat_map_In; [exact Hleaf|].
  set (dir := full_path_of _ (txt "PSReadLine")).
  assert (P : full_path_of dir (txt "ConsoleHost_history.txt") =
              txt "/Users/" ++ user ++
              txt "/AppData/Roaming/Microsoft/Windows/PowerShell/PSReadLine/ConsoleHost_history.txt").
  { subst dir. unfold full_path_of. cbn [text_eqb txt map list_byte_of_string
      negb andb N.eqb Pos.eqb app].
    cbn. rewrite <- !app_assoc. reflexivity. }
  unfold matches_of, leaf. cbn [visit]. rewrite Hname, Hreg.
  change (mem (txt "ConsoleHost_history.txt") [txt "."; txt ".."]) with false.
  cbv iota.
  change (text_eqb (lower (txt "ConsoleHost_history.txt")) target_filename)
    with true.
  cbv iota. rewrite P.
  assert (L : all_parts_in
                (lower (txt "/Users/" ++ user ++
                        txt "/AppData/Roaming/Microsoft/Windows/PowerShell/PSReadLine/ConsoleHost_history.txt"))
              = true).
  { rewrite lower_ascii
      by (rewrite !forallb_app, Hascii; reflexivity).
    rewrite !map_app, app_assoc. apply all_parts_in_right. reflexivity. }
  rewrite L. left. reflexivity.
Qed.

End Extraction.

(** ** The claims at concrete inputs *)

(** The statement of C1 as the specification words it fails: the history
    of the first profile cannot be read, and the file written for the
    second match carries the number 2 although it is the first file
    extracted. *)
Lemma C1_counterexample :
  match extract_from_image no_unicode_lower replace_all no_codec no_codec
          (a_host (Returns (bare_image (Returns two_users_fs))))
          (txt "disk.dd") (txt "out") None with
  | (Success s, evs) =>
      files_found s = 2 /\ files_extracted s = 1 /\
      map (fun a => op_name (output_path a)) (extracted_files s) =
        [txt "ConsoleHost_history_bob_2.txt"] /\
      evs = [Mkdir (txt "out");
             WriteFile (txt "out") (txt "ConsoleHost_history_bob_2.txt")
                       three_lines] /\
      ~ numbered_among_extracted (extracted_files s)
  | _ => False
  end.
Proof.
  vm_compute. repeat split.
  intros H. specialize (H 0 _ eq_refl). vm_compute in H. discriminate.
Qed.

Lemma C1_witness :
  In (WriteFile (txt "out") (txt "ConsoleHost_history_bob_2.txt") three_lines)
     (snd (extract_from_image no_unicode_lower replace_all no_codec no_codec
             (a_host (Returns (bare_image (Returns two_users_fs))))
             (txt "disk.dd") (txt "out") None)).
Proof.
  destruct (extract_from_image no_unicode_lower replace_all no_codec no_codec
              (a_host (Returns (bare_image (Returns two_users_fs))))
              (txt "disk.dd") (txt "out") None) as [res evs] eqn:E.
  assert (E' := E). vm_compute in E'. injection E' as <- <-.
  destruct (gather no_unicode_lower replace_all
              (bare_image (Returns two_users_fs)) None) as [all|e] eqn:G;
    [|vm_compute in G; discriminate].
  assert (G' := G). vm_compute in G'. injection G' as <-.
  exact (proj1 (proj1 (@C1_output_file_per_match
                         no_unicode_lower replace_all no_codec no_codec
                         _ _ _ _ _ _ _ _ E eq_refl G)
                      1 _ three_lines eq_refl eq_refl
                      ltac:(discriminate))).
Defined.

Lemma C2_witness :
  In {| line_number := 3; command_text := txt "Get-Service" |}
     (parse_commands (latin1_decode three_lines)).
Proof.
  apply (proj1 (@C2_commands_from_lines
                  no_unicode_lower replace_all no_codec no_codec
                  (latin1_decode three_lines))).
  split; [lia|]. exists (txt "Get-Service").
  split; [reflexivity|]. split; [reflexivity|discriminate].
Defined.

Lemma C3_witness :
  results
    (visit no_unicode_lower replace_all
       (txt "/Users/bob/AppData/Roaming/Microsoft/Windows/PowerShell/PSReadLine")
       (Entry (AsStr (txt "ConsoleHost_history.txt"))
              (Some {| meta_type := TSK_FS_META_TYPE_REG; meta_size := 25 |})
              (Returns three_lines) OpenRaises [])
       start_walk) =
  [{| r_path := txt "/Users/bob/AppData/Roaming/Microsoft/Windows/PowerShell/PSReadLine/ConsoleHost_history.txt";
      r_size := 25;
      r_entry := Entry (AsStr (txt "ConsoleHost_history.txt"))
                   (Some {| meta_type := TSK_FS_META_TYPE_REG; meta_size := 25 |})
                   (Returns three_lines) OpenRaises [];
      r_partition := None; r_partition_num := None |}].
Proof.
  apply (proj1 (proj1 (@C3_match_condition no_unicode_lower replace_all
     (txt "/Users/bob/AppData/Roaming/Microsoft/Windows/PowerShell/PSReadLine")
     (AsStr (txt "ConsoleHost_history.txt")) 25 (Returns three_lines)
     OpenRaises [] start_walk))).
  split; [reflexivity|].
  apply all_parts_in_components. reflexivity.
Defined.

Lemma C4_witness :
  visit no_unicode_lower replace_all (txt "/")
    (a_dir "Temp" [history (Returns three_lines)]) start_walk = start_walk.
Proof.
  apply (proj1 (@C4_pruning no_unicode_lower replace_all)).
  - reflexivity.
  - intros H. apply descend_pruning_rule in H. vm_compute in H. discriminate.
Defined.

Lemma C5_witness :
  decode no_codec no_codec latin_1 [xff; xfe] = Some [255%N; 254%N] /\
  exists before after,
    encodings = before ++ latin_1 :: after /\
    Forall (fun e => decode no_codec no_codec e [xff; xfe] = None) before.
Proof.
  apply (proj1 (proj2 (@C5_first_successful_encoding
                         no_unicode_lower no_codec no_codec [xff; xfe]))).
  reflexivity.
Defined.

Lemma C6_witness :
  get_username_from_path no_unicode_lower (txt "/USERS/alice/history") =
  txt "alice".
Proof.
  apply (proj1 (@C6_username_from_path no_unicode_lower
                  (txt "/USERS/alice/history"))
               [[]] (txt "USERS") (txt "alice") [txt "history"]).
  - reflexivity.
  - constructor; [|constructor]. vm_compute. discriminate.
  - reflexivity.
Defined.

Lemma C7_witness :
  extract_from_image no_unicode_lower replace_all no_codec no_codec
    (a_host (Returns (bare_image (Raises (txt "cannot determine file system type")))))
    (txt "disk.dd") (txt "out") None =
  (Failure (txt "Could not process filesystem: cannot determine file system type"),
   [Mkdir (txt "out")]).
Proof.
  apply (proj1 (proj2 (proj1
    (@C7_probe_failure_and_fatal_open
       no_unicode_lower replace_all no_codec no_codec
       (a_host (Returns (bare_image (Raises (txt "cannot determine file system type")))))
       (txt "disk.dd") (txt "out") None
       (bare_image (Raises (txt "cannot determine file system type")))
       ltac:(repeat split))
    (or_introl (ex_intro _ (txt "no volume system") eq_refl))))).
  reflexivity.
Defined.

(** The statement of C8 as the specification words it fails: the
    iterator of the root directory raises after the entries were
    delivered, and the run returns the failure dictionary instead of a
    result with what was found. *)
Lemma C8_counterexample :
  extract_from_image no_unicode_lower replace_all no_codec no_codec
    (a_host (Returns (bare_image (Returns failing_root_fs))))
    (txt "disk.dd") (txt "out") None =
  (Failure (txt "Could not process filesystem: read error"), [Mkdir (txt "out")])
  /\ map r_path
       (results (fst (find_consolehost_files no_unicode_lower replace_all
                        failing_root_fs (txt "/") start_walk))) =
     [txt "/Users/bob/AppData/Roaming/Microsoft/Windows/PowerShell/PSReadLine/ConsoleHost_history.txt"]
  /\ ~ exists s evs,
         extract_from_image no_unicode_lower replace_all no_codec no_codec
           (a_host (Returns (bare_image (Returns failing_root_fs))))
           (txt "disk.dd") (txt "out") None = (Success s, evs).
Proof.
  split; [vm_compute; reflexivity|]. split; [vm_compute; reflexivity|].
  intros [s [evs H]]. vm_compute in H. discriminate.
Qed.

Lemma C8_witness :
  gather no_unicode_lower replace_all disk_image None =
  Returns (scan_partitions no_unicode_lower replace_all disk_image None 1
             [{| flags := 1; desc := AsStr (txt "NTFS (0x07)");
                 start := 1050624 |}] []).
Proof.
  apply (proj1 (@C8_failure_isolation
                  no_unicode_lower replace_all no_codec no_codec)
               disk_image None []
               {| flags := 1;
                  desc := AsBytes (list_byte_of_string "Basic data partition");
                  start := 2048 |}
               [{| flags := 1; desc := AsStr (txt "NTFS (0x07)");
                   start := 1050624 |}]
               (txt "cannot determine file system type")).
  - reflexivity.
  - reflexivity.
Defined.

Lemma C9_witness :
  exists s evs,
    extract_from_image no_unicode_lower replace_all no_codec no_codec
      (a_host (Returns disk_image)) (txt "disk.dd") (txt "out") None
    = (Success s, evs) /\
    files_extracted s <= files_found s.
Proof.
  destruct (extract_from_image no_unicode_lower replace_all no_codec no_codec
              (a_host (Returns disk_image)) (txt "disk.dd") (txt "out") None)
    as [res evs] eqn:E.
  assert (E' := E). vm_compute in E'. injection E' as <- <-.
  eexists. eexists. split; [reflexivity|].
  exact (proj2 (proj2 (@C9_counts no_unicode_lower replace_all no_codec no_codec
                         _ _ _ _ _ _ E))).
Defined.

Lemma C10_witness :
  process_match no_unicode_lower no_codec no_codec (txt "out") 0
    {| r_path := txt "/Users/bob/ConsoleHost_history.txt"; r_size := 0;
       r_entry := history (Returns []);
       r_partition := None; r_partition_num := None |}
    {| events := [Mkdir (txt "out")]; extracted := []; content_var := None |}
  = inl {| events := [Mkdir (txt "out")]; extracted := [];
           content_var := None |}.
Proof.
  apply (proj1 (proj2 (proj2 (@C10_empty_content_is_skipped
           no_unicode_lower replace_all no_codec no_codec
           (AsStr (txt "ConsoleHost_history.txt"))
           {| meta_type := TSK_FS_META_TYPE_REG; meta_size := 0 |}
           OpenRaises [])))).
  left. reflexivity.
Defined.

(** ** The further properties at concrete inputs *)

Lemma X1_witness :
  exists content enc recs,
    try_encodings no_codec no_codec encodings windows_lines = Some (content, enc) /\
    parse_consolehost_history no_codec no_codec
      (fh_open (one_file "history.txt" windows_lines)) (txt "history.txt")
    = Returns recs /\
    map (fun l => {| line_number := hl_line_number l;
                     command_text := hl_command l |}) recs =
    parse_commands content.
Proof.
  exact (@X1_file_parse_agrees_with_image_parse no_codec no_codec
           (fh_open (one_file "history.txt" windows_lines))
           (txt "history.txt") windows_lines eq_refl).
Defined.

Lemma X2_witness : StronglySorted lt [1; 3].
Proof.
  exact (proj2 (@X2_parse_records no_codec no_codec
                  (fh_open (one_file "history.txt" windows_lines))
                  (txt "history.txt") windows_lines
                  (latin1_decode windows_lines) utf_8
                  (collect_lines 1
                     (splitlines (universal_newlines (latin1_decode windows_lines))))
                  eq_refl eq_refl eq_refl)).
Defined.


Lemma X4_witness :
  exists s2,
    extract_consolehost_history no_codec no_codec
      (one_file "history.txt" windows_lines) (txt "history.txt") true false
    = HistorySuccess s2 /\
    h_command_count s2 = 2 /\ h_total_lines s2 = 3.
Proof.
  destruct (extract_consolehost_history no_codec no_codec
              (one_file "history.txt" windows_lines) (txt "history.txt")
              false true) as [e|s1|e] eqn:E;
    [vm_compute in E; discriminate | | vm_compute in E; discriminate].
  assert (E' := E). vm_compute in E'. injection E' as <-.
  destruct (@X4_flags_do_not_change_the_counts no_codec no_codec
              _ _ false true true false _ E) as (s2 & E2 & Hc & Ht & _).
  exists s2. split; [exact E2|]. split; [exact Hc | exact Ht].
Defined.

Lemma X5_witness :
  exists s,
    extract_consolehost_history no_codec no_codec
      (one_file "history.txt" windows_lines) (txt "history.txt") true true
    = HistorySuccess s /\
    List.length (h_commands s) = h_total_lines s.
Proof.
  destruct (extract_consolehost_history no_codec no_codec
              (one_file "history.txt" windows_lines) (txt "history.txt")
              true true) as [e|s|e] eqn:E;
    [vm_compute in E; discriminate | | vm_compute in E; discriminate].
  exists s. split; [reflexivity|].
  exact (proj1 (proj1 (@X5_entries_per_line no_codec no_codec
                         (one_file "history.txt" windows_lines)
                         (txt "history.txt") true s) E)).
Defined.

Lemma X6_witness :
  exists s recs,
    extract_consolehost_history no_codec no_codec
      (one_file "history.txt" windows_lines) (txt "history.txt") false true
    = HistorySuccess s /\
    parse_consolehost_history no_codec no_codec
      (fh_open (one_file "history.txt" windows_lines)) (txt "history.txt")
    = Returns recs /\
    h_command_count s = List.length recs.
Proof.
  destruct (extract_consolehost_history no_codec no_codec
              (one_file "history.txt" windows_lines) (txt "history.txt")
              false true) as [e|s|e] eqn:E;
    [vm_compute in E; discriminate | | vm_compute in E; discriminate].
  destruct (@X6_default_flags_agree_with_parse no_codec no_codec
              (one_file "history.txt" windows_lines) (txt "history.txt") s E)
    as (recs & Hp & _ & Hc).
  exists s, recs. auto.
Defined.

Lemma X7_witness :
  exists s s',
    extract_consolehost_history no_codec no_codec
      (one_file "history.txt" windows_lines) (txt "history.txt") true true
    = HistorySuccess s /\
    extract_consolehost_history no_codec no_codec
      (one_file "history.txt" windows_lines) (txt "history.txt") true false
    = HistorySuccess s' /\
    map ce_command (h_commands s) = map ce_command (h_commands s').
Proof.
  destruct (extract_consolehost_history no_codec no_codec
              (one_file "history.txt" windows_lines) (txt "history.txt")
              true true) as [e|s|e] eqn:E;
    [vm_compute in E; discriminate | | vm_compute in E; discriminate].
  destruct (extract_consolehost_history no_codec no_codec
              (one_file "history.txt" windows_lines) (txt "history.txt")
              true false) as [e|s'|e] eqn:E';
    [vm_compute in E'; discriminate | | vm_compute in E'; discriminate].
  exists s, s'. split; [reflexivity|]. split; [reflexivity|].
  exact (proj1 (@X7_line_numbers_flag no_codec no_codec
                  (one_file "history.txt" windows_lines) (txt "history.txt")
                  true true s s' E E')).
Defined.

Lemma X8_witness :
  extract_consolehost_history no_codec no_codec
    (one_file "history.txt" windows_lines) (txt "missing.txt") false true
  = HistoryFailure (txt "File not found: missing.txt").
Proof.
  apply (proj1 (proj2 (proj2 (@X8_history_success_condition no_codec no_codec
           (one_file "history.txt" windows_lines) (txt "missing.txt")
           false true)))).
  reflexivity.
Defined.

Lemma X9_witness :
  try_encodings no_codec no_codec encodings bom_lines =
  Some (65279%N :: txt "whoami" ++ [10%N], utf_8).
Proof.
  apply (proj2 (proj2 (@X9_utf8_sig_is_never_reported no_codec no_codec
                         (list_byte_of_string "whoami" ++ [x0a])))).
  reflexivity.
Defined.

Lemma X10_witness :
  try_encodings no_codec no_codec encodings (list_byte_of_string "whoami") =
  Some (txt "whoami", utf_8).
Proof.
  apply (proj1 (proj2 (@X10_reported_encoding no_codec no_codec
                         (list_byte_of_string "whoami")))).
  repeat (constructor; [reflexivity|]). constructor.
Defined.

Lemma X11_witness :
  is_space (hd 0%N (txt "Get-Service")) = false /\
  is_space (last (txt "Get-Service") 0%N) = false.
Proof.
  destruct (@X11_commands_are_trimmed_lines
              (latin1_decode windows_lines)
              {| line_number := 3; command_text := txt "Get-Service" |}
              ltac:(right; left; reflexivity))
    as (_ & Hh & Hl & _).
  split; [exact Hh | exact Hl].
Defined.

Lemma X13_witness :
  NoDup
    (written_names
       (snd (extract_from_image no_unicode_lower replace_all no_codec no_codec
               (a_host (Returns (bare_image (Returns two_users_fs))))
               (txt "disk.dd") (txt "out") None))).
Proof.
  destruct (extract_from_image no_unicode_lower replace_all no_codec no_codec
              (a_host (Returns (bare_image (Returns two_users_fs))))
              (txt "disk.dd") (txt "out") None) as [res evs] eqn:E.
  assert (E' := E). vm_compute in E'. injection E' as <- <-.
  exact (proj2 (@X13_output_files_do_not_collide
                  no_unicode_lower replace_all no_codec no_codec)
               _ _ _ _ _ _ E).
Defined.

Lemma X14_witness :
  exists s evs,
    extract_from_image no_unicode_lower replace_all no_codec no_codec
      (a_host (Returns (bare_image (Returns two_users_fs))))
      (txt "disk.dd") (txt "out") None = (Success s, evs) /\
    files_extracted s = List.length (written_names evs).
Proof.
  destruct (extract_from_image no_unicode_lower replace_all no_codec no_codec
              (a_host (Returns (bare_image (Returns two_users_fs))))
              (txt "disk.dd") (txt "out") None) as [res evs] eqn:E.
  assert (E' := E). vm_compute in E'. injection E' as <- <-.
  eexists. eexists. split; [reflexivity|].
  exact (proj2 (proj2 (proj2 (@X14_artifacts_match_written_files
           no_unicode_lower replace_all no_codec no_codec _ _ _ _ _ _ E)))).
Defined.

Lemma X15_witness :
  exists s evs,
    extract_from_image no_unicode_lower replace_all no_codec no_codec
      (a_host (Returns (bare_image (Returns two_users_fs))))
      (txt "disk.dd") (txt "out") None = (Success s, evs) /\
    files_found s - files_extracted s = 1.
Proof.
  destruct (extract_from_image no_unicode_lower replace_all no_codec no_codec
              (a_host (Returns (bare_image (Returns two_users_fs))))
              (txt "disk.dd") (txt "out") None) as [res evs] eqn:E.
  assert (E' := E). vm_compute in E'. injection E' as <- <-.
  destruct (gather no_unicode_lower replace_all
              (bare_image (Returns two_users_fs)) None) as [all|e] eqn:G;
    [|vm_compute in G; discriminate].
  assert (G' := G). vm_compute in G'. injection G' as <-.
  eexists. eexists. split; [reflexivity|].
  exact (proj2 (proj2 (proj2 (@X15_artifacts_in_discovery_order
           no_unicode_lower replace_all no_codec no_codec
           _ _ _ _ _ _ _ _ E eq_refl G)))).
Defined.

Lemma X16_witness :
  extract_from_image no_unicode_lower replace_all no_codec no_codec
    (a_host (Returns disk_image)) (txt "disk.dd") (txt "out") (Some 7%Z)
  = (Success {| image_path := txt "disk.dd"; output_dir := txt "out";
                files_found := 0; files_extracted := 0;
                extracted_files := [] |},
     [Mkdir (txt "out")]).
Proof.
  apply (@X16_partition_filter_out_of_range
           no_unicode_lower replace_all no_codec no_codec
           (a_host (Returns disk_image)) (txt "disk.dd") (txt "out") 7%Z
           disk_image
           {| flags := 1;
              desc := AsBytes (list_byte_of_string "Basic data partition");
              start := 2048 |}
           [{| flags := 1; desc := AsStr (txt "NTFS (0x07)");
               start := 1050624 |}]).
  - repeat split.
  - reflexivity.
  - right. simpl. lia.
Defined.

Lemma X17_witness :
  extract_from_image no_unicode_lower replace_all no_codec no_codec
    (a_host (Returns (bare_image (Returns bob_fs))))
    (txt "disk.dd") (txt "out") (Some 3%Z) =
  extract_from_image no_unicode_lower replace_all no_codec no_codec
    (a_host (Returns (bare_image (Returns bob_fs))))
    (txt "disk.dd") (txt "out") None.
Proof.
  apply (@X17_partition_filter_ignored_without_partitions
           no_unicode_lower replace_all no_codec no_codec).
  intros img H. injection H as <-. left. eexists. reflexivity.
Defined.

Lemma X18_witness :
  exists s evs a,
    extract_from_image no_unicode_lower replace_all no_codec no_codec
      (a_host (Returns disk_image)) (txt "disk.dd") (txt "out") None
    = (Success s, evs) /\
    In a (extracted_files s) /\
    exists k part,
      nth_error two_partitions k = Some part /\
      partition a = to_text replace_all (desc part).
Proof.
  destruct (extract_from_image no_unicode_lower replace_all no_codec no_codec
              (a_host (Returns disk_image)) (txt "disk.dd") (txt "out") None)
    as [res evs] eqn:E.
  assert (E' := E). vm_compute in E'. injection E' as <- <-.
  eexists. eexists. eexists. split; [reflexivity|].
  split; [left; reflexivity|].
  destruct (proj1 (@X18_partition_of_an_artifact
                     no_unicode_lower replace_all no_codec no_codec
                     _ _ _ _ _ _ disk_image _ E eq_refl
                     (or_introl eq_refl))
                  _ _ eq_refl)
    as (k & part & fs & Hk & _ & _ & _ & _ & Hp).
  exists k, part. split; [exact Hk | exact Hp].
Defined.

Lemma X20_witness :
  exists r,
    In r (results (fst (find_consolehost_files no_unicode_lower replace_all
                          bob_fs (txt "/") start_walk))) /\
    exists rest, r_path r = txt "/" ++ rest.
Proof.
  destruct (results (fst (find_consolehost_files no_unicode_lower replace_all
                            bob_fs (txt "/") start_walk)))
    as [|r rs] eqn:E; [vm_compute in E; discriminate|].
  exists r. split; [left; reflexivity|].
  apply (@X20_matches_lie_below_the_start no_unicode_lower replace_all
           bob_fs (txt "/") r).
  rewrite E. left. reflexivity.
Defined.

Lemma X21_witness :
  written_names
    (snd (extract_from_image no_unicode_lower replace_all no_codec no_codec
            (a_host (Returns (bare_image
                                (Raises (txt "cannot determine file system type")))))
            (txt "disk.dd") (txt "out") None)) = [].
Proof.
  exact (proj1 (@X21_failed_run_writes_no_file
                  no_unicode_lower replace_all no_codec no_codec
                  (a_host (Returns (bare_image
                                      (Raises (txt "cannot determine file system type")))))
                  (txt "disk.dd") (txt "out") None
                  (txt "Could not process filesystem: cannot determine file system type")
                  [Mkdir (txt "out")] eq_refl)).
Defined.

Lemma X22_witness :
  In {| r_path := txt "/Users/bob/AppData/Roaming/Microsoft/Windows/PowerShell/PSReadLine/ConsoleHost_history.txt";
        r_size := 25;
        r_entry := bytes_history;
        r_partition := None; r_partition_num := None |}
     (results (fst (find_consolehost_files no_unicode_lower ascii_or_replace
                      bytes_fs (txt "/") start_walk))).
Proof.
  apply (@X22_default_location_is_found no_unicode_lower ascii_or_replace
           (txt "bob")
           (AsBytes (list_byte_of_string "ConsoleHost_history.txt"))
           {| meta_type := TSK_FS_META_TYPE_REG; meta_size := 25 |}
           (Returns three_lines) OpenRaises [] bytes_fs).
  - reflexivity.
  - reflexivity.
  - discriminate.
  - reflexivity.
  - reflexivity.
  - cbn [leads_to bytes_fs snd].
    do 8 (do 5 eexists; split; [left; reflexivity|];
          split; [reflexivity|]; split; [reflexivity|];
          split; [discriminate|]).
    left. reflexivity.
Defined.

(** The statement of C9 as the specification words it fails: two
    partitions hold the same history file; the iterator of the first
    one's root directory raises after the file was located, the matches
    of that partition are dropped, and [files_found] is 1 although two
    matches were located in the filesystems searched. *)
Lemma C9_counterexample :
  match extract_from_image no_unicode_lower replace_all no_codec no_codec
          (a_host (Returns half_read_image)) (txt "disk.dd") (txt "out") None
  with
  | (Success s, _) =>
      files_found s = 1 /\
      map (located no_unicode_lower replace_all)
          (opened_filesystems half_read_image None) = [1; 1] /\
      files_found s <>
      list_sum (map (located no_unicode_lower replace_all)
                    (opened_filesystems half_read_image None))
  | _ => False
  end.
Proof.
  vm_compute. split; [reflexivity|]. split; [reflexivity|]. discriminate.
Qed.
